(** * The XMLHttpRequest emulator of [src/shims/XMLHttpRequest.js]

    A shallow embedding of the emulator object.  Its private variables and
    public fields become one record; every method and every transport
    callback becomes a function in a small state-and-exception monad; and
    everything the emulator does to the outside world (dispatching an
    event, printing a warning, calling the transport) is appended to a
    trace kept in the state, so that order can be stated.

    Strings are sequences of bytes, the UTF-8 form of the text.  The
    private [headers] and [listeners] are plain objects: a finite map holds
    their own properties, and the names they inherit from
    [Object.prototype] are accounted for where the code reaches them
    through a name the caller chose.  The URL resolver [./url] and the
    transport [./http] belong to the host platform: the resolver is a
    parameter of the emulator, the transport is what the trace records.
    Listeners are the caller's code and are taken not to call back into
    the emulator while an event is being dispatched.  *)

From Stdlib Require Import ZArith String Ascii List Bool Lia.
From stdpp Require Import base option strings gmap pretty.
Import ListNotations.

Local Open Scope Z_scope.
Local Open Scope string_scope.

(** ** JavaScript values that reach the emulator *)

Module JS.

(** The primitive values the emulator handles.  Numbers are the integers
    (status codes, ports, byte lengths). *)
Inductive value : Type :=
| Undefined
| Null
| Bool (b : bool)
| Num (n : Z)
| Str (s : string).

#[global] Instance value_eq_dec : EqDecision value.
Proof. solve_decision. Defined.

(** [ToBoolean]: what [if (v)], [!v], [v || w] and [v && w] test. *)
Definition truthy (v : value) : bool :=
  match v with
  | Undefined | Null => false
  | Bool b => b
  | Num n => negb (Z.eqb n 0)
  | Str s => negb (String.eqb s EmptyString)
  end.

(** [v || w]. *)
Definition or (v w : value) : value := if truthy v then v else w.

(** [ToString], as applied by [+] when the other operand is a string. *)
Definition to_string (v : value) : string :=
  match v with
  | Undefined => "undefined"
  | Null => "null"
  | Bool true => "true"
  | Bool false => "false"
  | Num n => pretty n
  | Str s => s
  end.

(** [v + s] and [s + v] for a string [s]. *)
Definition concat (v w : value) : string := to_string v ++ to_string w.

(** [v === w] on primitives. *)
Definition strict_eq (v w : value) : bool := bool_decide (v = w).

(** [typeof v === 'undefined'] and [typeof v !== 'boolean']. *)
Definition is_undefined (v : value) : bool :=
  match v with Undefined => true | _ => false end.
Definition is_boolean (v : value) : bool :=
  match v with Bool _ => true | _ => false end.

(** The lower case of an ASCII character. *)
Definition lower_ascii (c : ascii) : ascii :=
  let n := nat_of_ascii c in
  if andb (Nat.leb 65 n) (Nat.leb n 90) then ascii_of_nat (n + 32) else c.

(** The three bytes E2 84 AA that hold the Kelvin sign U+212A in UTF-8. *)
Definition is_kelvin (a b c : ascii) : bool :=
  Ascii.eqb a "226"%char && Ascii.eqb b "132"%char && Ascii.eqb c "170"%char.

(** [s.toLowerCase()] on a string held as UTF-8.  The ASCII capitals go to
    their small letters and the Kelvin sign goes to [k]: it is the one
    character outside ASCII whose lower case is ASCII, so a name lower-cases
    to an ASCII name here exactly when it does in JavaScript.  Other
    characters outside ASCII are left as they are. *)
Fixpoint toLowerCase (s : string) : string :=
  match s with
  | EmptyString => EmptyString
  | String c r =>
      match r with
      | String c1 (String c2 r') =>
          if is_kelvin c c1 c2 then String "k"%char (toLowerCase r')
          else String (lower_ascii c) (toLowerCase r)
      | _ => String (lower_ascii c) (toLowerCase r)
      end
  end.

(** The property names a plain object inherits from [Object.prototype]. *)
Definition Object_prototype : list string :=
  [ "constructor"; "hasOwnProperty"; "isPrototypeOf"; "propertyIsEnumerable";
    "toLocaleString"; "toString"; "valueOf"; "__proto__";
    "__defineGetter__"; "__defineSetter__"; "__lookupGetter__"; "__lookupSetter__" ].

Definition inherited (name : string) : bool :=
  existsb (String.eqb name) Object_prototype.

(** [arr.indexOf(x) === -1] on an array of strings. *)
Definition not_in (x : string) (arr : list string) : bool :=
  negb (existsb (String.eqb x) arr).

(** The value of [obj[k]] on the own properties of an object used as a
    map. *)
Definition get (obj : gmap string value) (k : string) : value :=
  default Undefined (obj !! k).

End JS.

(** An [Error] object: its message, and the stack text that [handleError]
    copies into [responseText]. *)
Record JsError : Type := mkError { message : string; stack : string }.

(** ** The collaborators: URL resolver and transport *)

(** What [Url.parse] returns.  The fields are JavaScript values: whether an
    absent part is [undefined], [null] or the empty string, and whether a
    port is text or a number, is the resolver's business. *)
Record Url : Type := mkUrl {
  protocol : JS.value;
  hostname : JS.value;
  port : JS.value;
  pathname : JS.value;
  search : JS.value;
  path : JS.value;
  hash : JS.value
}.

(** The [options] object handed to [http.request].  A field the emulator
    does not set is [Undefined]; [o_tls] records that the TLS fields of the
    constructor options were copied in. *)
Record Options : Type := mkOptions {
  o_protocol : JS.value;
  o_hostname : JS.value;
  o_port : JS.value;
  o_path : JS.value;
  o_pathname : JS.value;
  o_search : JS.value;
  o_hash : JS.value;
  o_method : JS.value;
  o_headers : gmap string JS.value;
  o_agent : JS.value;
  o_tls : bool
}.

(** The response object passed to the response handler. *)
Record Response : Type := mkResponse {
  statusCode : Z;
  r_headers : gmap string JS.value;
  has_setEncoding : bool
}.

(** Everything observable from outside, in program order. *)
Inductive Action : Type :=
| Dispatch (event : string) (state : Z)  (* dispatchEvent, with the readyState listeners see *)
| Warn (msg : string)                    (* console.warn *)
| DoRequest (o : Options)                (* http.request(options, responseHandler) *)
| ReqWrite (data : string)               (* request.write *)
| ReqEnd                                 (* request.end *)
| ReqAbort                               (* request.abort *)
| SetEncoding (enc : string).            (* response.setEncoding *)

(** ** The emulator's state *)

Record Settings : Type := mkSettings {
  method : JS.value;
  url : JS.value;
  async : JS.value;
  user : JS.value;
  password : JS.value
}.

(** [var settings = {}]. *)
Definition empty_settings : Settings :=
  mkSettings JS.Undefined JS.Undefined JS.Undefined JS.Undefined JS.Undefined.

Record XHR : Type := mkXHR {
  request : option Options;       (* var request: the live transport handle *)
  response : option Response;     (* var response *)
  settings : Settings;
  disableHeaderCheck : bool;
  headers : gmap string JS.value;
  sendFlag : bool;
  errorFlag : bool;
  readyState : Z;
  responseText : string;
  responseXML : string;
  status : JS.value;
  statusText : option JsError;
  trace : list Action;
  plain_headers : bool            (* the prototype of [headers] is [Object.prototype] *)
}.

Definition UNSENT : Z := 0.
Definition OPENED : Z := 1.
Definition HEADERS_RECEIVED : Z := 2.
Definition LOADING : Z := 3.
Definition DONE : Z := 4.

Definition defaultHeaders : gmap string JS.value :=
  <["User-Agent" := JS.Str "node-XMLHttpRequest"]>
    (<["Accept" := JS.Str "*/*"]> ∅).

Definition forbiddenRequestHeaders : list string :=
  [ "accept-charset"; "accept-encoding"; "access-control-request-headers";
    "access-control-request-method"; "connection"; "content-length";
    "content-transfer-encoding"; "cookie"; "cookie2"; "date"; "expect";
    "host"; "keep-alive"; "origin"; "referer"; "te"; "trailer";
    "transfer-encoding"; "upgrade"; "via" ].

Definition forbiddenRequestMethods : list string :=
  [ "TRACE"; "TRACK"; "CONNECT" ].

(** The object right after [new XMLHttpRequest(opts)]. *)
Definition initial : XHR :=
  {| request := None; response := None; settings := empty_settings;
     disableHeaderCheck := false; headers := defaultHeaders;
     sendFlag := false; errorFlag := false; readyState := UNSENT;
     responseText := EmptyString; responseXML := EmptyString; status := JS.Null;
     statusText := None; trace := []; plain_headers := true |}.

(** Field updates. *)
Definition set_request v (x : XHR) : XHR :=
  mkXHR v x.(response) x.(settings) x.(disableHeaderCheck) x.(headers) x.(sendFlag)
        x.(errorFlag) x.(readyState) x.(responseText) x.(responseXML) x.(status)
        x.(statusText) x.(trace) x.(plain_headers).
Definition set_response v (x : XHR) : XHR :=
  mkXHR x.(request) v x.(settings) x.(disableHeaderCheck) x.(headers) x.(sendFlag)
        x.(errorFlag) x.(readyState) x.(responseText) x.(responseXML) x.(status)
        x.(statusText) x.(trace) x.(plain_headers).
Definition set_settings v (x : XHR) : XHR :=
  mkXHR x.(request) x.(response) v x.(disableHeaderCheck) x.(headers) x.(sendFlag)
        x.(errorFlag) x.(readyState) x.(responseText) x.(responseXML) x.(status)
        x.(statusText) x.(trace) x.(plain_headers).
Definition set_disableHeaderCheck v (x : XHR) : XHR :=
  mkXHR x.(request) x.(response) x.(settings) v x.(headers) x.(sendFlag)
        x.(errorFlag) x.(readyState) x.(responseText) x.(responseXML) x.(status)
        x.(statusText) x.(trace) x.(plain_headers).
Definition set_headers v (x : XHR) : XHR :=
  mkXHR x.(request) x.(response) x.(settings) x.(disableHeaderCheck) v x.(sendFlag)
        x.(errorFlag) x.(readyState) x.(responseText) x.(responseXML) x.(status)
        x.(statusText) x.(trace) x.(plain_headers).
Definition set_sendFlag v (x : XHR) : XHR :=
  mkXHR x.(request) x.(response) x.(settings) x.(disableHeaderCheck) x.(headers) v
        x.(errorFlag) x.(readyState) x.(responseText) x.(responseXML) x.(status)
        x.(statusText) x.(trace) x.(plain_headers).
Definition set_errorFlag v (x : XHR) : XHR :=
  mkXHR x.(request) x.(response) x.(settings) x.(disableHeaderCheck) x.(headers) x.(sendFlag)
        v x.(readyState) x.(responseText) x.(responseXML) x.(status)
        x.(statusText) x.(trace) x.(plain_headers).
Definition set_readyState v (x : XHR) : XHR :=
  mkXHR x.(request) x.(response) x.(settings) x.(disableHeaderCheck) x.(headers) x.(sendFlag)
        x.(errorFlag) v x.(responseText) x.(responseXML) x.(status)
        x.(statusText) x.(trace) x.(plain_headers).
Definition set_responseText v (x : XHR) : XHR :=
  mkXHR x.(request) x.(response) x.(settings) x.(disableHeaderCheck) x.(headers) x.(sendFlag)
        x.(errorFlag) x.(readyState) v x.(responseXML) x.(status)
        x.(statusText) x.(trace) x.(plain_headers).
Definition set_responseXML v (x : XHR) : XHR :=
  mkXHR x.(request) x.(response) x.(settings) x.(disableHeaderCheck) x.(headers) x.(sendFlag)
        x.(errorFlag) x.(readyState) x.(responseText) v x.(status)
        x.(statusText) x.(trace) x.(plain_headers).
Definition set_status v (x : XHR) : XHR :=
  mkXHR x.(request) x.(response) x.(settings) x.(disableHeaderCheck) x.(headers) x.(sendFlag)
        x.(errorFlag) x.(readyState) x.(responseText) x.(responseXML) v
        x.(statusText) x.(trace) x.(plain_headers).
Definition set_statusText v (x : XHR) : XHR :=
  mkXHR x.(request) x.(response) x.(settings) x.(disableHeaderCheck) x.(headers) x.(sendFlag)
        x.(errorFlag) x.(readyState) x.(responseText) x.(responseXML) x.(status)
        v x.(trace) x.(plain_headers).
Definition set_trace v (x : XHR) : XHR :=
  mkXHR x.(request) x.(response) x.(settings) x.(disableHeaderCheck) x.(headers) x.(sendFlag)
        x.(errorFlag) x.(readyState) x.(responseText) x.(responseXML) x.(status)
        x.(statusText) v x.(plain_headers).
Definition set_plain_headers v (x : XHR) : XHR :=
  mkXHR x.(request) x.(response) x.(settings) x.(disableHeaderCheck) x.(headers) x.(sendFlag)
        x.(errorFlag) x.(readyState) x.(responseText) x.(responseXML) x.(status)
        x.(statusText) x.(trace) v.

(** ** Statements: state passing with exceptions

    A statement either completes with a value or throws; in both cases the
    assignments made so far stay in the state, as they do in JavaScript. *)

Inductive outcome (A : Type) : Type :=
| Return (a : A)
| Throw (msg : string).
Arguments Return {A} a.
Arguments Throw {A} msg.

Definition M (A : Type) : Type := XHR -> outcome A * XHR.

Definition ret {A} (a : A) : M A := fun x => (Return a, x).
Definition throw {A} (msg : string) : M A := fun x => (Throw msg, x).
Definition bind {A B} (m : M A) (k : A -> M B) : M B :=
  fun x => match m x with
           | (Return a, x') => k a x'
           | (Throw e, x') => (Throw e, x')
           end.
Definition get {A} (f : XHR -> A) : M A := fun x => (Return (f x), x).
Definition modify (f : XHR -> XHR) : M unit := fun x => (Return tt, f x).
Definition emit (a : Action) : M unit :=
  modify (fun x => set_trace (x.(trace) ++ [a]) x).
Definition when (b : bool) (m : M unit) : M unit := if b then m else ret tt.

Declare Scope xhr_scope.
Delimit Scope xhr_scope with xhr.
Notation "'let!' v ':=' m 'in' k" := (bind m (fun v => k))
  (at level 10, v name, m at level 100, k at level 200) : xhr_scope.
Notation "m ;; k" := (bind m (fun _ => k))
  (at level 100, k at level 200, right associativity) : xhr_scope.
Local Open Scope xhr_scope.

(** Running a statement for its final state, and for how it ended. *)
Definition exec {A} (m : M A) (x : XHR) : XHR := snd (m x).
Definition result {A} (m : M A) (x : XHR) : outcome A := fst (m x).

(** The double quote character, for the two messages that quote a word. *)
Definition dquote : string := String "034"%char EmptyString.

(** ** The emulator *)

Section Emulator.

(** [Url.parse] of [./url], the URL resolver the host platform supplies. *)
Variable Url_parse : JS.value -> Url.

(** [opts.agent] of the constructor's options. *)
Variable opts_agent : JS.value.

(** *** Private methods *)

(** [isAllowedHttpHeader(header)], for a string [header]. *)
Definition isAllowedHttpHeader (x : XHR) (header : string) : bool :=
  x.(disableHeaderCheck)
  || (JS.truthy (JS.Str header)
      && JS.not_in (JS.toLowerCase header) forbiddenRequestHeaders).

(** [isAllowedHttpMethod(method)]; [indexOf] compares with [===], so only
    a string can be found in the list. *)
Definition isAllowedHttpMethod (method : JS.value) : bool :=
  JS.truthy method
  && match method with
     | JS.Str m => JS.not_in m forbiddenRequestMethods
     | _ => true
     end.

(** [dispatchEvent(event)].  The callbacks (the [on<event>] slot, then the
    registered listeners) are the caller's code; the trace records the
    dispatch and the [readyState] they are called with. *)
Definition dispatchEvent (event : string) : M unit :=
  let! rs := get readyState in
  emit (Dispatch event rs).

(** [setState(state)]. *)
Definition setState (state : Z) : M unit :=
  let! rs := get readyState in
  if negb (rs =? state)%Z then
    modify (set_readyState state) ;;
    let! st := get settings in
    let! rs := get readyState in
    when (JS.truthy st.(async) || (rs <? OPENED)%Z || (rs =? DONE)%Z)
         (dispatchEvent "readystatechange") ;;
    let! rs := get readyState in
    let! err := get errorFlag in
    when ((rs =? DONE)%Z && negb err)
         (dispatchEvent "load" ;; dispatchEvent "loadend")
  else ret tt.

(** *** Public methods *)

(** [abort()]. *)
Definition abort : M unit :=
  let! req := get request in
  match req with
  | Some _ => emit ReqAbort ;; modify (set_request None)
  | None => ret tt
  end ;;
  modify (set_headers defaultHeaders) ;;
  modify (set_plain_headers true) ;;
  modify (set_responseText EmptyString) ;;
  modify (set_responseXML EmptyString) ;;
  modify (set_errorFlag true) ;;
  let! rs := get readyState in
  let! sf := get sendFlag in
  when (negb (rs =? UNSENT)%Z
        && (negb (rs =? OPENED)%Z || sf)
        && negb (rs =? DONE)%Z)
       (modify (set_sendFlag false) ;; setState DONE) ;;
  modify (set_readyState UNSENT).

(** [open(method, url, async, user, password)]; [url] is a string, so
    [url.toString()] is [url]. *)
Definition open (method : JS.value) (url : string)
           (async user password : JS.value) : M unit :=
  abort ;;
  modify (set_errorFlag false) ;;
  if negb (isAllowedHttpMethod method) then
    throw "SecurityError: Request method not allowed"
  else
    modify (set_settings
              {| method := method;
                 url := JS.Str url;
                 async := if negb (JS.is_boolean async) then JS.Bool true else async;
                 user := JS.or user JS.Null;
                 password := JS.or password JS.Null |}) ;;
    setState OPENED.

(** [setDisableHeaderCheck(state)]. *)
Definition setDisableHeaderCheck (state : bool) : M unit :=
  modify (set_disableHeaderCheck state).

(** The state after [headers[name] = value], for any name.  An own
    property is overwritten.  Failing that, [__proto__] on an object whose
    prototype is still [Object.prototype] goes to the inherited setter,
    which makes [null] the prototype and ignores every other primitive.
    Any other name becomes an own property. *)
Definition assigned (name : string) (value : JS.value) (x : XHR) : XHR :=
  match x.(headers) !! name with
  | Some _ => set_headers (<[name := value]> x.(headers)) x
  | None =>
      if String.eqb name "__proto__" && x.(plain_headers) then
        match value with
        | JS.Null => set_plain_headers false x
        | _ => x
        end
      else set_headers (<[name := value]> x.(headers)) x
  end.

(** [setRequestHeader(header, value)]. *)
Definition setRequestHeader (header : string) (value : JS.value) : M bool :=
  let! rs := get readyState in
  if negb (rs =? OPENED)%Z then
    throw "INVALID_STATE_ERR: setRequestHeader can only be called when state is OPEN"
  else
    let! allowed := get (fun x => isAllowedHttpHeader x header) in
    if negb allowed then
      emit (Warn ("Refused to set unsafe header " ++ dquote ++ header ++ dquote)) ;;
      ret false
    else
      let! sf := get sendFlag in
      if sf then throw "INVALID_STATE_ERR: send flag is true"
      else
        modify (assigned header value) ;;
        ret true.

(** What [headers[name]] can be: a value, or the member of that name which
    the object inherits from [Object.prototype] (a function, or for
    [__proto__] the prototype itself), always truthy. *)
Inductive member : Type :=
| Value (v : JS.value)
| Inherited (name : string).

(** [getRequestHeader(name)], for a string [name]. *)
Definition getRequestHeader (name : string) : M member :=
  let! h := get headers in
  let! plain := get plain_headers in
  match h !! name with
  | Some v => if JS.truthy v then ret (Value v) else ret (Value (JS.Str EmptyString))
  | None =>
      if plain && JS.inherited name then ret (Inherited name)
      else ret (Value (JS.Str EmptyString))
  end.

(** [headers[k] = v] for the names [send] writes, none of them [__proto__]. *)
Definition set_header (k : string) (v : JS.value) : M unit :=
  modify (fun x => set_headers (<[k := v]> x.(headers)) x).

(** The [switch (url.protocol)] of [send]: the pair [(ssl, local)] and the
    [hostname] variable, or the protocol error. *)
Definition determine_server (u : Url) : outcome (bool * bool * JS.value) :=
  match u.(protocol) with
  | JS.Str p =>
      if String.eqb p "https:" then Return (true, false, u.(hostname))
      else if String.eqb p "http:" then Return (false, false, u.(hostname))
      else if String.eqb p "file:" then Return (false, true, JS.Undefined)
      else if String.eqb p EmptyString then Return (false, false, JS.Str "localhost")
      else Throw "Protocol not supported."
  | JS.Undefined => Return (false, false, JS.Str "localhost")
  | _ => Throw "Protocol not supported."
  end.

(** [url.port || (ssl ? 443 : 80)]. *)
Definition effective_port (ssl : bool) (u : Url) : JS.value :=
  JS.or u.(port) (JS.Num (if ssl then 443 else 80)).

(** The test guarding [headers['Host'] += ':' + url.port]. *)
Definition omits_port (ssl : bool) (port : JS.value) : bool :=
  (ssl && JS.strict_eq port (JS.Num 443)) || JS.strict_eq port (JS.Num 80).

(** The value [headers['Host']] ends up with. *)
Definition host_header (ssl : bool) (u : Url) : JS.value :=
  if negb (omits_port ssl (effective_port ssl u))
  then JS.Str (JS.to_string u.(hostname) ++ (":" ++ JS.to_string u.(port)))
  else u.(hostname).

(** [url.pathname + (url.search ? url.search : '')], the concatenation
    that [+] is once one side is a string, as a query string or [''] is. *)
Definition request_uri (u : Url) : JS.value :=
  JS.Str (JS.concat u.(pathname)
            (if JS.truthy u.(search) then u.(search) else JS.Str EmptyString)).

(** The optional body as a value: [undefined] when there is none. *)
Definition of_option (o : option string) : JS.value :=
  match o with Some s => JS.Str s | None => JS.Undefined end.

(** The blocks of [send], in source order. *)

(** "Set the Host header or the server may reject the request". *)
Definition set_host (ssl : bool) (u : Url) : M unit :=
  let eport := effective_port ssl u in
  set_header "Host" u.(hostname) ;;
  when (negb (omits_port ssl eport))
       (let! h := get headers in
        set_header "Host"
          (JS.Str (JS.to_string (JS.get h "Host") ++ (":" ++ JS.to_string u.(port))))).

(** "Set Basic Auth if necessary". *)
Definition set_basic_auth : M unit :=
  let! st := get settings in
  when (JS.truthy st.(user))
       (when (JS.is_undefined st.(password))
             (modify (fun x =>
                set_settings (mkSettings x.(settings).(method) x.(settings).(url)
                                x.(settings).(async) x.(settings).(user) (JS.Str EmptyString)) x)) ;;
        let! st := get settings in
        set_header "Authorization"
          (JS.Str ((("Basic " ++ JS.to_string st.(user)) ++ ":")
                     ++ JS.to_string st.(password)))).

(** "Set content length header": returns [data] as it is after the
    block, [None] standing for [null] and for an absent argument.  The
    byte length of a string is its length, a string being its bytes. *)
Definition set_content_length (data : option string) : M (option string) :=
  let! st := get settings in
  let method_is m := JS.strict_eq st.(method) (JS.Str m) in
  if method_is "GET" || method_is "HEAD" then ret None
  else if JS.truthy (of_option data) then
    set_header "Content-Length"
      (JS.Num (Z.of_nat (String.length (default EmptyString data)))) ;;
    let! h := get headers in
    when (negb (JS.truthy (JS.get h "Content-Type")))
         (set_header "Content-Type" (JS.Str "text/plain;charset=UTF-8")) ;;
    ret data
  else
    when (method_is "POST") (set_header "Content-Length" (JS.Num 0)) ;;
    ret data.

(** The [options] object literal. *)
Definition request_options (ssl : bool) (host : JS.value) (u : Url) : M Options :=
  let! st := get settings in
  let! h := get headers in
  ret {| o_protocol := u.(protocol); o_hostname := host;
         o_port := effective_port ssl u; o_path := request_uri u;
         o_pathname := u.(pathname); o_search := u.(search);
         o_hash := u.(hash); o_method := st.(method); o_headers := h;
         o_agent := JS.or opts_agent (JS.Bool false); o_tls := ssl |}.

(** "Handle async requests": the branch taken when [settings.async]. *)
Definition issue_request (options : Options) (data : option string) : M unit :=
  modify (set_sendFlag true) ;;
  dispatchEvent "readystatechange" ;;
  emit (DoRequest options) ;;
  modify (set_request (Some options)) ;;
  when (JS.truthy (of_option data)) (emit (ReqWrite (default EmptyString data))) ;;
  emit ReqEnd ;;
  dispatchEvent "loadstart".

(** [send(data)]; [data] is the optional body, [None] when absent. *)
Definition send (data : option string) : M unit :=
  let! rs := get readyState in
  if negb (rs =? OPENED)%Z then
    throw "INVALID_STATE_ERR: connection must be opened before send() is called"
  else
  let! sf := get sendFlag in
  if sf then throw "INVALID_STATE_ERR: send has already been called" else
  let! st := get settings in
  let u := Url_parse st.(url) in
  match determine_server u with
  | Throw e => throw e
  | Return (ssl, local, host) =>
    if local then
      throw ("The " ++ dquote ++ "local" ++ dquote ++ " option is not supported on TItanium.")
    else
      set_host ssl u ;;
      set_basic_auth ;;
      let! data := set_content_length data in
      let! options := request_options ssl host u in
      modify (set_errorFlag false) ;;
      let! st := get settings in
      if JS.truthy st.(async) then issue_request options data
      else throw "Synchronous requests are not supported in Titanium."
  end.

(** [handleError(error)]. *)
Definition handleError (error : JsError) : M unit :=
  modify (set_status (JS.Num 503)) ;;
  modify (set_statusText (Some error)) ;;
  modify (set_responseText error.(stack)) ;;
  modify (set_errorFlag true) ;;
  setState DONE.

(** *** Transport callbacks

    [responseHandler] is a closure of one [send] call: besides the
    emulator's variables it captures that call's [ssl]. *)

Definition is_redirect (code : Z) : bool :=
  (code =? 302)%Z || (code =? 303)%Z || (code =? 307)%Z.

Definition responseHandler (ssl : bool) (resp : Response) : M unit :=
  modify (set_response (Some resp)) ;;
  if is_redirect resp.(statusCode) then
    modify (fun x =>
      set_settings (mkSettings x.(settings).(method) (JS.get resp.(r_headers) "location")
                      x.(settings).(async) x.(settings).(user) x.(settings).(password)) x) ;;
    let! st := get settings in
    let u := Url_parse st.(url) in
    let! h := get headers in
    let newOptions :=
      {| o_protocol := JS.Undefined; o_hostname := u.(hostname); o_port := u.(port);
         o_path := u.(path); o_pathname := JS.Undefined; o_search := JS.Undefined;
         o_hash := JS.Undefined;
         o_method := if (resp.(statusCode) =? 303)%Z then JS.Str "GET" else st.(method);
         o_headers := h; o_agent := JS.Undefined; o_tls := ssl |} in
    emit (DoRequest newOptions) ;;
    modify (set_request (Some newOptions)) ;;
    emit ReqEnd
  else
    when resp.(has_setEncoding) (emit (SetEncoding "utf8")) ;;
    setState HEADERS_RECEIVED ;;
    modify (set_status (JS.Num resp.(statusCode))).

(** [response.on('data', function (chunk) ...)], for a text chunk. *)
Definition on_data (chunk : string) : M unit :=
  when (JS.truthy (JS.Str chunk))
       (modify (fun x => set_responseText (x.(responseText) ++ chunk) x)) ;;
  let! sf := get sendFlag in
  when sf (setState LOADING).

(** [response.on('end', function () ...)]. *)
Definition on_end : M unit :=
  let! sf := get sendFlag in
  when sf (modify (set_sendFlag false) ;; setState DONE).

(** [response.on('error', ...)] and the request's [errorHandler]. *)
Definition on_error (error : JsError) : M unit := handleError error.

End Emulator.

(** ** A resolver for the examples

    It knows the URLs used in the concrete runs below and gives what a
    resolver in the style of Node's [url.parse] gives for them (an explicit
    port is reported as a string); anything else is taken as a relative
    path. *)

Definition absolute (proto host : string) (p : JS.value) (pth : string) : Url :=
  {| protocol := JS.Str proto; hostname := JS.Str host; port := p;
     pathname := JS.Str pth; search := JS.Null; path := JS.Str pth; hash := JS.Null |}.

Definition sample_parse (v : JS.value) : Url :=
  match v with
  | JS.Str s =>
      if String.eqb s "http://example.com/a" then
        absolute "http:" "example.com" JS.Null "/a"
      else if String.eqb s "http://example.com/b" then
        absolute "http:" "example.com" JS.Null "/b"
      else if String.eqb s "https://example.com/a" then
        absolute "https:" "example.com" JS.Null "/a"
      else if String.eqb s "https://example.com:8443/a" then
        absolute "https:" "example.com" (JS.Str "8443") "/a"
      else if String.eqb s "file:///tmp/a" then
        {| protocol := JS.Str "file:"; hostname := JS.Str EmptyString; port := JS.Null;
           pathname := JS.Str "/tmp/a"; search := JS.Null; path := JS.Str "/tmp/a";
           hash := JS.Null |}
      else
        {| protocol := JS.Undefined; hostname := JS.Null; port := JS.Null;
           pathname := v; search := JS.Null; path := v; hash := JS.Null |}
  | _ =>
      {| protocol := JS.Undefined; hostname := JS.Null; port := JS.Null;
         pathname := JS.Null; search := JS.Null; path := JS.Null; hash := JS.Null |}
  end.

(** The emulator over that resolver, constructed without an agent. *)
Module Sample.
Definition send := send sample_parse JS.Undefined.
Definition responseHandler := responseHandler sample_parse.
End Sample.

(** ** Reading the trace, and the functions the statements compute *)

Local Open Scope list_scope.

(** What was appended to the trace between two states of one run. *)
Definition since (x x' : XHR) : list Action :=
  drop (length x.(trace)) x'.(trace).

(** The events dispatched, each with the [readyState] it was dispatched in. *)
Definition events (l : list Action) : list (string * Z) :=
  omap (fun a => match a with Dispatch e s => Some (e, s) | _ => None end) l.

(** The states in which a given event was dispatched. *)
Definition fired (event : string) (l : list Action) : list Z :=
  omap (fun a => match a with
                 | Dispatch e s => if String.eqb e event then Some s else None
                 | _ => None
                 end) l.

(** The requests handed to the transport. *)
Definition requests (l : list Action) : list Options :=
  omap (fun a => match a with DoRequest o => Some o | _ => None end) l.

(** What [setState(st)] dispatches when it does change the state. *)
Definition transition_events (x : XHR) (st : Z) : list Action :=
  (if JS.truthy x.(settings).(async) || (st <? OPENED)%Z || (st =? DONE)%Z
   then [Dispatch "readystatechange" st] else [])
  ++ (if (st =? DONE)%Z && negb x.(errorFlag)
      then [Dispatch "load" st; Dispatch "loadend" st] else []).

(** [haystack.includes(needle)], to classify error messages. *)
Fixpoint includes (needle haystack : string) : bool :=
  String.prefix needle haystack
  || match haystack with
     | EmptyString => false
     | String _ rest => includes needle rest
     end.

Definition with_password (pw : JS.value) (st : Settings) : Settings :=
  mkSettings st.(method) st.(url) st.(async) st.(user) pw.

Definition with_url (u : JS.value) (st : Settings) : Settings :=
  mkSettings st.(method) u st.(async) st.(user) st.(password).

(** The password after the Basic-Auth block. *)
Definition auth_password (st : Settings) : JS.value :=
  if JS.truthy st.(user) && JS.is_undefined st.(password)
  then JS.Str EmptyString else st.(password).

(** The headers after the Basic-Auth block. *)
Definition auth_headers (st : Settings) (h : gmap string JS.value) : gmap string JS.value :=
  if JS.truthy st.(user)
  then <["Authorization" :=
           JS.Str ((("Basic " +:+ JS.to_string st.(user)) +:+ ":")
                     +:+ JS.to_string (auth_password st))]> h
  else h.

Definition bodyless (st : Settings) : bool :=
  JS.strict_eq st.(method) (JS.Str "GET") || JS.strict_eq st.(method) (JS.Str "HEAD").

(** The body that is written to the request. *)
Definition sent_body (st : Settings) (data : option string) : option string :=
  if bodyless st then None else data.

(** The headers after the content-length block. *)
Definition length_headers (st : Settings) (data : option string)
           (h : gmap string JS.value) : gmap string JS.value :=
  if bodyless st then h
  else if JS.truthy (of_option data) then
    let h1 := <["Content-Length" := JS.Num (Z.of_nat (String.length (default EmptyString data)))]> h in
    if negb (JS.truthy (JS.get h1 "Content-Type"))
    then <["Content-Type" := JS.Str "text/plain;charset=UTF-8"]> h1 else h1
  else if JS.strict_eq st.(method) (JS.Str "POST")
       then <["Content-Length" := JS.Num 0]> h else h.

(** The headers a request leaves with. *)
Definition outgoing_headers (st : Settings) (ssl : bool) (u : Url)
           (data : option string) (h : gmap string JS.value) : gmap string JS.value :=
  length_headers st data (auth_headers st (<["Host" := host_header ssl u]> h)).

(** The state once [send] has built the headers and cleared the error flag. *)
Definition prepared (ssl : bool) (u : Url) (data : option string) (x : XHR) : XHR :=
  set_errorFlag false
    (set_headers (outgoing_headers x.(settings) ssl u data x.(headers))
       (set_settings (with_password (auth_password x.(settings)) x.(settings)) x)).

(** The options of the request [send] issues. *)
Definition sent_options (agent : JS.value) (ssl : bool) (host : JS.value) (u : Url)
           (data : option string) (x : XHR) : Options :=
  {| o_protocol := u.(protocol); o_hostname := host;
     o_port := effective_port ssl u; o_path := request_uri u;
     o_pathname := u.(pathname); o_search := u.(search);
     o_hash := u.(hash); o_method := x.(settings).(method);
     o_headers := outgoing_headers x.(settings) ssl u data x.(headers);
     o_agent := JS.or agent (JS.Bool false); o_tls := ssl |}.

(** What [send] does to the transport and the listeners when it goes out. *)
Definition sent_actions (o : Options) (body : option string) : list Action :=
  Dispatch "readystatechange" OPENED :: DoRequest o
    :: (if JS.truthy (of_option body) then [ReqWrite (default EmptyString body)] else [])
    ++ [ReqEnd; Dispatch "loadstart" OPENED].

Definition sync_error : string := "Synchronous requests are not supported in Titanium.".
Definition local_error : string :=
  "The " +:+ dquote +:+ "local" +:+ dquote +:+ " option is not supported on TItanium.".
Definition protocol_error : string := "Protocol not supported.".
Definition already_sent_error : string := "INVALID_STATE_ERR: send has already been called".
Definition not_opened_error : string :=
  "INVALID_STATE_ERR: connection must be opened before send() is called".

(** The test [abort] makes before forcing [DONE]. *)
Definition mid_exchange (x : XHR) : bool :=
  negb (x.(readyState) =? UNSENT)%Z
  && (negb (x.(readyState) =? OPENED)%Z || x.(sendFlag))
  && negb (x.(readyState) =? DONE)%Z.

Definition security_error : string := "SecurityError: Request method not allowed".

(** The settings object literal of [open]. *)
Definition opened_settings (m : JS.value) (u : string) (a usr pw : JS.value) : Settings :=
  {| method := m; url := JS.Str u;
     async := if negb (JS.is_boolean a) then JS.Bool true else a;
     user := JS.or usr JS.Null; password := JS.or pw JS.Null |}.

(** A sample object, opened asynchronously on the fresh emulator. *)
Definition opened_sample : XHR :=
  exec (open (JS.Str "GET") "http://example.com/a" JS.Undefined JS.Undefined JS.Undefined)
       initial.

(** The state [handleError] calls [setState] in. *)
Definition failed (error : JsError) (x : XHR) : XHR :=
  set_errorFlag true
    (set_responseText error.(stack)
       (set_statusText (Some error) (set_status (JS.Num 503) x))).

(** The options of the request that follows a redirect. *)
Definition redirect_options (parse : JS.value -> Url) (ssl : bool) (resp : Response)
           (x : XHR) : Options :=
  let u := parse (JS.get resp.(r_headers) "location") in
  {| o_protocol := JS.Undefined; o_hostname := u.(hostname); o_port := u.(port);
     o_path := u.(path); o_pathname := JS.Undefined; o_search := JS.Undefined;
     o_hash := JS.Undefined;
     o_method := if (resp.(statusCode) =? 303)%Z then JS.Str "GET"
                 else x.(settings).(method);
     o_headers := x.(headers); o_agent := JS.Undefined; o_tls := ssl |}.

(** The response used in the concrete runs: status 200, no headers. *)
Definition ok_response : Response :=
  {| statusCode := 200; r_headers := ∅; has_setEncoding := true |}.

(** An exchange aborted after its first chunk. *)
Definition aborted_sample : XHR :=
  exec (Sample.send None ;; Sample.responseHandler false ok_response ;;
        on_data "ab" ;; abort) opened_sample.

Definition sample_error : JsError :=
  {| message := "connect ECONNREFUSED"; stack := "Error: connect ECONNREFUSED" |}.

(** An exchange that failed in the transport. *)
Definition failed_sample : XHR :=
  exec (Sample.send None ;; on_error sample_error) opened_sample.

Definition not_open_error : string :=
  "INVALID_STATE_ERR: setRequestHeader can only be called when state is OPEN".
Definition send_flag_error : string := "INVALID_STATE_ERR: send flag is true".
Definition refusal (header : string) : string :=
  "Refused to set unsafe header " +:+ dquote +:+ header +:+ dquote.

(** A header name is forbidden when its lower-case form is in the list. *)
Definition forbidden (header : string) : bool :=
  existsb (String.eqb (JS.toLowerCase header)) forbiddenRequestHeaders.

(** A sample exchange whose request has gone out and whose response has not
    arrived: still [OPENED], send flag up. *)
Definition sent_sample : XHR := exec (Sample.send None) opened_sample.

(** The resolver of [./url] is not among the sources.  It is taken to
    report a port as text, the way Node's [url.parse] does: the digits
    written in the URL, or [null] when the URL names no port; never a
    number. *)
Definition text_port (u : Url) : bool :=
  match u.(port) with JS.Num _ => false | _ => true end.

(** A resolver that would report the port as a number, on an [https] URL
    that names port 80. *)
Definition numeric_parse (_ : JS.value) : Url :=
  absolute "https:" "example.com" (JS.Num 80) "/a".

(** An emulator opened on an [https] URL that names a port. *)
Definition port_sample : XHR :=
  exec (open (JS.Str "GET") "https://example.com:8443/a"
             JS.Undefined JS.Undefined JS.Undefined) initial.

(** The Kelvin sign, in UTF-8. *)
Definition kelvin : string :=
  String "226"%char (String "132"%char (String "170"%char EmptyString)).

(** What can happen to an emulator: the caller's method calls and the
    transport's callbacks. *)
Inductive Call : Type :=
| Open (m : JS.value) (u : string) (a usr pw : JS.value)
| SetDisableHeaderCheck (state : bool)
| SetRequestHeader (header : string) (value : JS.value)
| Send (data : option string)
| Abort
| OnResponse (ssl : bool) (resp : Response)
| OnData (chunk : string)
| OnEnd
| OnError (error : JsError).

(** The state after one call, whether it returned or threw. *)
Definition call (parse : JS.value -> Url) (agent : JS.value) (c : Call) (x : XHR) : XHR :=
  match c with
  | Open m u a usr pw => exec (open m u a usr pw) x
  | SetDisableHeaderCheck b => exec (setDisableHeaderCheck b) x
  | SetRequestHeader h v => exec (setRequestHeader h v) x
  | Send data => exec (send parse agent data) x
  | Abort => exec abort x
  | OnResponse ssl resp => exec (responseHandler parse ssl resp) x
  | OnData chunk => exec (on_data chunk) x
  | OnEnd => exec on_end x
  | OnError e => exec (on_error e) x
  end.

(** The state after a sequence of calls. *)
Definition run (parse : JS.value -> Url) (agent : JS.value)
           (cs : list Call) (x : XHR) : XHR :=
  fold_left (fun y c => call parse agent c y) cs x.

(** The Basic-Auth block of [send] has no password to fill in. *)
Definition password_settled (st : Settings) : Prop :=
  JS.truthy st.(user) && JS.is_undefined st.(password) = false.

(** What one call does to the settings. *)
Definition settings_after (c : Call) (st : Settings) : Settings :=
  match c with
  | Open m u a usr pw =>
      if isAllowedHttpMethod m then opened_settings m u a usr pw else st
  | OnResponse _ resp =>
      if is_redirect resp.(statusCode)
      then with_url (JS.get resp.(r_headers) "location") st else st
  | _ => st
  end.

(** A response redirecting the sample exchange. *)
Definition redirect_response (code : Z) : Response :=
  {| statusCode := code;
     r_headers := {[ "location" := JS.Str "http://example.com/b" ]};
     has_setEncoding := true |}.

(** A sample object opened for a [POST]. *)
Definition post_sample : XHR :=
  exec (open (JS.Str "POST") "http://example.com/a" JS.Undefined JS.Undefined JS.Undefined)
       initial.

(** The send flag is up only while an exchange is under way, as the
    specification's data model has it. *)
Definition send_flag_consistent (x : XHR) : bool :=
  implb x.(sendFlag)
        (negb (x.(readyState) =? UNSENT)%Z && negb (x.(readyState) =? DONE)%Z).

(** ** The response getters *)

(** What reading [response.headers] throws while [response] is still
    undefined; the wording of the message is the engine's. *)
Definition response_undefined_error : string :=
  "TypeError: undefined is not an object (evaluating 'response.headers')".

(** [getResponseHeader(header)].  The conjunction is evaluated left to
    right, so [response.headers] is read before the error flag is. *)
Definition getResponseHeader (header : JS.value) : M JS.value :=
  let! rs := get readyState in
  let! resp := get response in
  let! err := get errorFlag in
  match header with
  | JS.Str h =>
      if (OPENED <? rs)%Z then
        match resp with
        | Some r =>
            let v := JS.get r.(r_headers) (JS.toLowerCase h) in
            if JS.truthy v && negb err then ret v else ret JS.Null
        | None => throw response_undefined_error
        end
      else ret JS.Null
  | _ => ret JS.Null
  end.

(** Carriage return and line feed. *)
Definition crlf : string := String "013"%char (String "010"%char EmptyString).

(** [s.substr(0, n)]: a length that is not positive gives the empty string. *)
Definition substr0 (s : string) (n : Z) : string :=
  if (n <=? 0)%Z then EmptyString else String.substring 0 (Z.to_nat n) s.

(** [i + ': ' + response.headers[i] + '\r\n']. *)
Definition header_line (r : Response) (i : string) : string :=
  ((i +:+ ": ") +:+ JS.to_string (JS.get r.(r_headers) i)) +:+ crlf.

(** The loop of [getAllResponseHeaders] over the keys of
    [response.headers]. *)
Definition collect_headers (r : Response) (keys : list string) : string :=
  fold_left (fun result i =>
               if negb (String.eqb i "set-cookie") && negb (String.eqb i "set-cookie2")
               then result +:+ header_line r i else result)
            keys EmptyString.

(** [getAllResponseHeaders()].  [keys] is the key sequence of
    [response.headers] as [for (var i in response.headers)] enumerates it:
    the header map itself does not record an order. *)
Definition getAllResponseHeaders (keys : list string) : M string :=
  let! rs := get readyState in
  let! err := get errorFlag in
  if (rs <? HEADERS_RECEIVED)%Z || err then ret EmptyString
  else
    let! resp := get response in
    match resp with
    | Some r =>
        let result := collect_headers r keys in
        ret (substr0 result (Z.of_nat (String.length result) - 2))
    | None => throw response_undefined_error
    end.

(** ** Event listeners

    The [on<event>] properties and the private [listeners] object, a plain
    object whose own properties are the lists of callbacks.  A callback is
    known by its identity, which is all [removeEventListener] compares. *)

Module Listeners.

Definition Callback : Type := nat.

Record Registry : Type := mkRegistry {
  slot : gmap string Callback;              (* the [on<event>] properties holding a function *)
  registered : gmap string (list Callback)  (* var listeners *)
}.

(** A fresh emulator: no [on<event>] function, [listeners = {}]. *)
Definition empty : Registry := {| slot := ∅; registered := ∅ |}.

(** [xhr['on' + event] = callback]. *)
Definition set_slot (event : string) (callback : option Callback) (r : Registry) : Registry :=
  {| slot := match callback with
             | Some f => <[event := f]> r.(slot)
             | None => delete event r.(slot)
             end;
     registered := r.(registered) |}.

(** [event in listeners]: an own list, or a name every object inherits. *)
Definition has (event : string) (r : Registry) : bool :=
  match r.(registered) !! event with
  | Some _ => true
  | None => JS.inherited event
  end.

(** The engine's error for calling [push] or [filter] on an inherited
    member, which has neither; the wording is V8's. *)
Definition not_a_function (method : string) : string :=
  "TypeError: listeners[event]." ++ method ++ " is not a function".

(** [addEventListener(event, callback)]. *)
Definition addEventListener (event : string) (callback : Callback) (r : Registry)
  : outcome unit * Registry :=
  let l := if has event r then r.(registered) else <[event := []]> r.(registered) in
  match l !! event with
  | Some cs =>
      (Return tt, {| slot := r.(slot); registered := <[event := cs ++ [callback]]> l |})
  | None => (Throw (not_a_function "push"), r)
  end.

(** [removeEventListener(event, callback)]. *)
Definition removeEventListener (event : string) (callback : Callback) (r : Registry)
  : outcome unit * Registry :=
  if has event r then
    match r.(registered) !! event with
    | Some cs =>
        (Return tt,
         {| slot := r.(slot);
            registered := <[event := filter (fun ev => ev <> callback) cs]> r.(registered) |})
    | None => (Throw (not_a_function "filter"), r)
    end
  else (Return tt, r).

(** [dispatchEvent(event)]: the callbacks it calls, in the order it calls
    them.  Under an inherited name without a list of its own the loop
    calls none. *)
Definition dispatchEvent (event : string) (r : Registry) : list Callback :=
  match r.(slot) !! event with Some f => [f] | None => [] end
  ++ match r.(registered) !! event with Some l => l | None => [] end.

(** Whether [dispatchEvent(event)] ends in a [TypeError] after the
    [on<event>] function: under an inherited name without a list of its
    own, the loop runs up to the [length] of the inherited member, which is
    positive for the functions that take arguments, and finds no callback
    at index 0. *)
Definition dispatch_throws (event : string) (r : Registry) : bool :=
  match r.(registered) !! event with
  | Some _ => false
  | None =>
      JS.inherited event
      && JS.not_in event ["toString"; "toLocaleString"; "valueOf"; "__proto__"]
  end.

(** The callbacks called over a trace, each with the event and the
    [readyState] it is called in. *)
Definition calls (r : Registry) (l : list Action) : list (Callback * string * Z) :=
  flat_map (fun a => match a with
                     | Dispatch e s => map (fun f => (f, e, s)) (dispatchEvent e r)
                     | _ => []
                     end) l.

End Listeners.

(** The bodies written to the transport. *)
Definition writes (l : list Action) : list string :=
  omap (fun a => match a with ReqWrite d => Some d | _ => None end) l.

(** ** Runs that leave the header check on *)

(** The call does not switch the header check off. *)
Definition keeps_check (c : Call) : bool :=
  match c with SetDisableHeaderCheck true => false | _ => true end.

(** The header names that [send] itself writes. *)
Definition written_by_send : list string :=
  [ "Host"; "Authorization"; "Content-Length"; "Content-Type" ].

(** A response with the given status code and no headers. *)
Definition bare_response (code : Z) : Response :=
  {| statusCode := code; r_headers := ∅; has_setEncoding := true |}.

(** A response with headers, and the sample exchange once the handler has
    taken it. *)
Definition headers_response : Response :=
  {| statusCode := 200;
     r_headers := <["content-type" := JS.Str "text/plain"]>
                    (<["set-cookie" := JS.Str "id=1"]>
                       (<["etag" := JS.Str "abc"]> ∅));
     has_setEncoding := true |}.

Definition received_sample : XHR :=
  exec (responseHandler sample_parse false headers_response) sent_sample.

(** ** [removeColors] of [src/shims/internal/util.js] *)

(** The escape character [\u001b]. *)
Definition escape : ascii := "027"%char.

(** [\d]. *)
Definition is_digit (c : ascii) : bool :=
  (48 <=? nat_of_ascii c)%nat && (nat_of_ascii c <=? 57)%nat.

(** The length of the match of [/\u001b\[\d\d?m/] at the start of the
    string, if there is one: two digits are tried before one. *)
Definition color_length (s : string) : option nat :=
  match s with
  | String e (String b (String d1 rest)) =>
      if Ascii.eqb e escape && Ascii.eqb b "["%char && is_digit d1 then
        match rest with
        | String d2 (String m _) =>
            if is_digit d2 && Ascii.eqb m "m"%char then Some 5%nat
            else if Ascii.eqb d2 "m"%char then Some 4%nat else None
        | String m EmptyString => if Ascii.eqb m "m"%char then Some 4%nat else None
        | EmptyString => None
        end
      else None
  | _ => None
  end.

(** The global replace by the empty string, left to right: [skip] counts
    the characters of the current match still to be dropped. *)
Fixpoint strip_colors (skip : nat) (s : string) : string :=
  match s with
  | EmptyString => EmptyString
  | String c rest =>
      match skip with
      | S k => strip_colors k rest
      | O => match color_length s with
             | Some n => strip_colors (Nat.pred n) rest
             | None => String c (strip_colors 0 rest)
             end
      end
  end.

(** [removeColors(str)]. *)
Definition removeColors (str : string) : string := strip_colors 0 str.

(** The string has no escape character. *)
Fixpoint no_escape (s : string) : bool :=
  match s with
  | EmptyString => true
  | String c rest => negb (Ascii.eqb c escape) && no_escape rest
  end.

(** A color code with one digit, and one with two. *)
Definition color1 (d : ascii) : string :=
  String escape (String "["%char (String d (String "m"%char EmptyString))).
Definition color2 (d1 d2 : ascii) : string :=
  String escape (String "["%char (String d1 (String d2 (String "m"%char EmptyString)))).

(** ** Predicates for the further properties *)

(** A stretch of trace in which [load] and [loadend] go together, both in
    state [DONE]. *)
Definition paired (l : list Action) : Prop :=
  fired "load" l = fired "loadend" l /\ Forall (eq DONE) (fired "load" l).

(** The only forbidden names among the keys are the two [send] writes. *)
Definition clean (h : gmap string JS.value) : Prop :=
  forall k v, h !! k = Some v -> forbidden k = true -> k = "Host" \/ k = "Content-Length".

(** The call is a body callback of the transport. *)
Definition is_body_callback (c : Call) : bool :=
  match c with OnData _ | OnEnd => true | _ => false end.

(** [s.substr(0, s.length - 2)]. *)
Definition chop (s : string) : string :=
  substr0 s (Z.of_nat (String.length s) - 2).

(** The header names that [getAllResponseHeaders] lets through. *)
Definition visible (i : string) : bool :=
  negb (String.eqb i "set-cookie") && negb (String.eqb i "set-cookie2").

(** One header as [name: value]. *)
Definition header_text (r : Response) (i : string) : string :=
  (i +:+ ": ") +:+ JS.to_string (JS.get r.(r_headers) i).

(** * How the statements run *)

(** ** The monad and [setState] *)

Arguments JS.to_string : simpl never.
Arguments JS.get : simpl never.
Arguments JS.truthy : simpl never.
Arguments JS.strict_eq : simpl never.
Arguments setState : simpl never.
Arguments abort : simpl never.

Ltac unfold_monad :=
  unfold exec, result, dispatchEvent, set_header, emit, when, modify, get,
    bind, ret, throw in *.

Lemma bind_run {A B} (m : M A) (k : A -> M B) x :
  bind m k x = match m x with
               | (Return a, x') => k a x'
               | (Throw e, x') => (Throw e, x')
               end.
Proof. reflexivity. Qed.

Lemma since_app x x' l : x'.(trace) = x.(trace) ++ l -> since x x' = l.
Proof. unfold since. intros ->. apply drop_app_length. Qed.

Lemma since_self x : since x x = [].
Proof. apply since_app. now rewrite app_nil_r. Qed.

Lemma setState_run st x :
  setState st x =
  (Return tt,
   if (x.(readyState) =? st)%Z then x
   else set_trace (x.(trace) ++ transition_events x st) (set_readyState st x)).
Proof.
  unfold setState, transition_events. unfold_monad.
  destruct (readyState x =? st)%Z eqn:E; cbn; [reflexivity|].
  destruct (JS.truthy _ || _ || _); cbn;
    destruct ((st =? DONE)%Z && negb (errorFlag x)); cbn;
    rewrite <- ?app_assoc, ?app_nil_r; reflexivity.
Qed.

(** ** The blocks of [send] *)

Lemma set_host_run ssl u x :
  set_host ssl u x =
  (Return tt, set_headers (<["Host" := host_header ssl u]> x.(headers)) x).
Proof.
  unfold set_host, host_header. unfold_monad.
  destruct (negb (omits_port ssl (effective_port ssl u))); cbn -[insert]; [|reflexivity].
  unfold set_headers; cbn -[insert]. unfold JS.get.
  rewrite lookup_insert_eq, insert_insert_eq. reflexivity.
Qed.

Lemma set_basic_auth_run x :
  set_basic_auth x =
  (Return tt,
   set_headers (auth_headers x.(settings) x.(headers))
     (set_settings (with_password (auth_password x.(settings)) x.(settings)) x)).
Proof.
  unfold set_basic_auth, auth_headers, auth_password, with_password. unfold_monad.
  destruct x as [rq rp [m u a usr pw] dh h sf ef rs rt rx stt sx tr ph]; cbn -[insert].
  destruct (JS.truthy usr); cbn -[insert]; [|reflexivity].
  destruct (JS.is_undefined pw); cbn -[insert]; reflexivity.
Qed.

Lemma set_content_length_run data x :
  set_content_length data x =
  (Return (sent_body x.(settings) data),
   set_headers (length_headers x.(settings) data x.(headers)) x).
Proof.
  unfold set_content_length, length_headers, sent_body, bodyless. unfold_monad.
  destruct x as [rq rp st dh h sf ef rs rt rx stt sx tr ph]; cbn -[insert].
  destruct (JS.strict_eq _ _ || JS.strict_eq _ _); cbn -[insert]; [reflexivity|].
  destruct (JS.truthy (of_option data)); cbn -[insert].
  - destruct (negb _); reflexivity.
  - destruct (JS.strict_eq _ _); reflexivity.
Qed.

Lemma outgoing_host st ssl u data h :
  outgoing_headers st ssl u data h !! "Host" = Some (host_header ssl u).
Proof.
  unfold outgoing_headers, length_headers, auth_headers.
  repeat match goal with |- context [if ?b then _ else _] => destruct b end;
    rewrite ?lookup_insert_ne by discriminate; apply lookup_insert_eq.
Qed.

Lemma outgoing_authorization st ssl u data h :
  JS.truthy st.(user) = true ->
  outgoing_headers st ssl u data h !! "Authorization"
  = Some (JS.Str ((("Basic " +:+ JS.to_string st.(user)) +:+ ":")
                    +:+ JS.to_string (auth_password st))).
Proof.
  intros Hu. unfold outgoing_headers, length_headers, auth_headers. rewrite Hu.
  repeat match goal with |- context [if ?b then _ else _] => destruct b end;
    rewrite ?lookup_insert_ne by discriminate; apply lookup_insert_eq.
Qed.

(** ** [send] as a whole *)

Lemma send_run parse agent data x ssl host :
  x.(readyState) = OPENED -> x.(sendFlag) = false ->
  determine_server (parse x.(settings).(url)) = Return (ssl, false, host) ->
  let u := parse x.(settings).(url) in
  let o := sent_options agent ssl host u data x in
  send parse agent data x =
  if JS.truthy x.(settings).(async) then
    (Return tt,
     set_trace (x.(trace) ++ sent_actions o (sent_body x.(settings) data))
       (set_request (Some o) (set_sendFlag true (prepared ssl u data x))))
  else (Throw sync_error, prepared ssl u data x).
Proof.
  intros Hrs Hsf Hsrv u o. subst u o.
  unfold send. unfold bind at 1. unfold get at 1. rewrite Hrs. cbn [negb Z.eqb OPENED Pos.eqb].
  unfold bind at 1. unfold get at 1. rewrite Hsf.
  unfold bind at 1. unfold get at 1. rewrite Hsrv.
  unfold bind at 1. rewrite set_host_run.
  unfold bind at 1. rewrite set_basic_auth_run.
  unfold bind at 1. rewrite set_content_length_run.
  unfold request_options, issue_request, sent_actions, prepared, sent_options,
    outgoing_headers, sync_error. unfold_monad.
  destruct x as [rq rp [m ur a usr pw] dh h sf ef rs rt rx stt sx tr ph].
  cbn -[insert length_headers auth_headers auth_password host_header] in *.
  subst rs. unfold with_password; cbn -[insert length_headers auth_headers auth_password host_header].
  destruct (JS.truthy a); [|reflexivity].
  cbn -[insert length_headers auth_headers auth_password host_header].
  destruct (JS.truthy (of_option _));
    cbn -[insert length_headers auth_headers auth_password host_header];
    rewrite <- ?app_assoc; reflexivity.
Qed.

(** ** [abort] and [open] *)

Lemma abort_spec x :
  let x' := exec abort x in
  result abort x = Return tt
  /\ x'.(readyState) = UNSENT
  /\ x'.(settings) = x.(settings)
  /\ x'.(headers) = defaultHeaders
  /\ x'.(responseText) = EmptyString
  /\ x'.(errorFlag) = true
  /\ x'.(disableHeaderCheck) = x.(disableHeaderCheck)
  /\ x'.(request) = None
  /\ x'.(sendFlag) = (if mid_exchange x then false else x.(sendFlag)).
Proof.
  unfold abort, mid_exchange. unfold_monad.
  destruct x as [rq rp st dh h sf ef rs rt rx stt sx tr ph]; cbn.
  destruct rq; cbn;
    destruct (negb (rs =? UNSENT)%Z && (negb (rs =? OPENED)%Z || sf) && negb (rs =? DONE)%Z);
    cbn; rewrite ?setState_run; cbn;
    try match goal with |- context [if ?b then _ else _] => destruct b end;
    cbn; repeat split; reflexivity.
Qed.

Lemma abort_plain_headers x : (exec abort x).(plain_headers) = true.
Proof.
  unfold exec, abort, mid_exchange. unfold_monad.
  destruct x as [rq rp st dh h sf ef rs rt rx stt sx tr ph]; cbn.
  destruct rq; cbn;
    destruct (negb (rs =? UNSENT)%Z && (negb (rs =? OPENED)%Z || sf) && negb (rs =? DONE)%Z);
    cbn; rewrite ?setState_run; cbn;
    try match goal with |- context [if ?b then _ else _] => destruct b end;
    reflexivity.
Qed.

Lemma open_spec m u a usr pw x :
  let x' := exec (open m u a usr pw) x in
  if isAllowedHttpMethod m then
    result (open m u a usr pw) x = Return tt
    /\ x'.(readyState) = OPENED
    /\ x'.(settings) = opened_settings m u a usr pw
    /\ x'.(headers) = defaultHeaders
    /\ x'.(responseText) = EmptyString
    /\ x'.(errorFlag) = false
    /\ x'.(disableHeaderCheck) = x.(disableHeaderCheck)
    /\ x'.(request) = None
    /\ x'.(sendFlag) = (if mid_exchange x then false else x.(sendFlag))
  else
    result (open m u a usr pw) x = Throw security_error
    /\ x'.(readyState) = UNSENT
    /\ x'.(settings) = x.(settings).
Proof.
  intros x'; subst x'. unfold exec, result, open. rewrite !bind_run.
  pose proof (abort_spec x) as H. unfold exec, result in H. cbn zeta in H.
  destruct (abort x) as [r xa]; cbn [fst snd] in H.
  destruct H as (-> & Hrs & Hst & Hh & Hrt & Hef & Hdh & Hrq & Hsf).
  unfold_monad. destruct (isAllowedHttpMethod m); cbn.
  - rewrite setState_run.
    destruct xa as [rq rp st dh h sf ef rs rt rx stt sx tr ph]; cbn in *. subst.
    cbn. repeat split; reflexivity.
  - destruct xa; cbn in *. subst. repeat split; reflexivity.
Qed.

(** ** The ways [send] stops early *)

Lemma send_not_opened parse agent data x :
  x.(readyState) <> OPENED ->
  send parse agent data x = (Throw not_opened_error, x).
Proof.
  intros H. apply Z.eqb_neq in H. unfold send. rewrite bind_run. unfold get at 1.
  rewrite H. reflexivity.
Qed.

Lemma send_already_sent parse agent data x :
  x.(readyState) = OPENED -> x.(sendFlag) = true ->
  send parse agent data x = (Throw already_sent_error, x).
Proof.
  intros Hrs Hsf. unfold send. rewrite bind_run. unfold get at 1. rewrite Hrs.
  cbn [negb Z.eqb OPENED Pos.eqb]. rewrite bind_run. unfold get at 1. rewrite Hsf.
  reflexivity.
Qed.

Lemma send_bad_protocol parse agent data x e :
  x.(readyState) = OPENED -> x.(sendFlag) = false ->
  determine_server (parse x.(settings).(url)) = Throw e ->
  send parse agent data x = (Throw e, x).
Proof.
  intros Hrs Hsf Hsrv. unfold send. rewrite bind_run. unfold get at 1. rewrite Hrs.
  cbn [negb Z.eqb OPENED Pos.eqb]. rewrite bind_run. unfold get at 1. rewrite Hsf.
  rewrite bind_run. unfold get at 1. rewrite Hsrv. reflexivity.
Qed.

Lemma send_local parse agent data x ssl host :
  x.(readyState) = OPENED -> x.(sendFlag) = false ->
  determine_server (parse x.(settings).(url)) = Return (ssl, true, host) ->
  send parse agent data x = (Throw local_error, x).
Proof.
  intros Hrs Hsf Hsrv. unfold send. rewrite bind_run. unfold get at 1. rewrite Hrs.
  cbn [negb Z.eqb OPENED Pos.eqb]. rewrite bind_run. unfold get at 1. rewrite Hsf.
  rewrite bind_run. unfold get at 1. rewrite Hsrv. reflexivity.
Qed.

Lemma determine_server_throw u e :
  determine_server u = Throw e -> e = protocol_error.
Proof.
  unfold determine_server. destruct (protocol u) as [| |b|n|p]; try discriminate;
    try (now intros [= <-]).
  repeat (destruct (String.eqb p _); [discriminate|]). now intros [= <-].
Qed.

(** A [send] that returns went through every check. *)
Lemma send_returns parse agent data x :
  result (send parse agent data) x = Return tt ->
  exists ssl host,
    x.(readyState) = OPENED /\ x.(sendFlag) = false
    /\ determine_server (parse x.(settings).(url)) = Return (ssl, false, host)
    /\ JS.truthy x.(settings).(async) = true.
Proof.
  unfold result. intros H.
  destruct (Z.eq_dec x.(readyState) OPENED) as [Hrs|Hrs];
    [|rewrite send_not_opened in H by assumption; discriminate].
  destruct (sendFlag x) eqn:Hsf;
    [rewrite send_already_sent in H by assumption; discriminate|].
  destruct (determine_server (parse x.(settings).(url))) as [[[ssl [|]] host]|e] eqn:Hsrv.
  - rewrite (send_local _ _ _ _ ssl host) in H by assumption. discriminate.
  - exists ssl, host. repeat split; try assumption.
    rewrite (send_run _ _ _ _ ssl host) in H by assumption.
    destruct (JS.truthy _); [reflexivity|discriminate].
  - rewrite (send_bad_protocol _ _ _ _ e) in H by assumption. discriminate.
Qed.

(** ** The transport callbacks *)

Arguments on_data : simpl never.
Arguments on_end : simpl never.
Arguments handleError : simpl never.

Lemma append_empty_r (s : string) : s +:+ EmptyString = s.
Proof. induction s as [|c s IH]; [reflexivity|]. cbn. unfold String.app. cbn. f_equal. exact IH. Qed.

Lemma on_data_run chunk x :
  on_data chunk x =
  (Return tt,
   let x1 := set_responseText (x.(responseText) +:+ chunk) x in
   if x.(sendFlag)
   then if (x.(readyState) =? LOADING)%Z then x1
        else set_trace (x.(trace) ++ transition_events x LOADING) (set_readyState LOADING x1)
   else x1).
Proof.
  unfold on_data. rewrite bind_run.
  assert (E : when (JS.truthy (JS.Str chunk))
                (modify (fun y => set_responseText (responseText y +:+ chunk) y)) x
              = (Return tt, set_responseText (x.(responseText) +:+ chunk) x)).
  { unfold JS.truthy. destruct (String.eqb_spec chunk EmptyString) as [->|_]; [|reflexivity].
    cbn. rewrite append_empty_r. destruct x; reflexivity. }
  rewrite E. unfold_monad. destruct x as [rq rp st dh h sf ef rs rt rx stt sx tr ph].
  cbn. destruct sf; [|reflexivity]. rewrite setState_run. cbn.
  destruct (rs =? LOADING)%Z; reflexivity.
Qed.

Lemma on_end_run x :
  on_end x =
  (Return tt,
   if x.(sendFlag)
   then if (x.(readyState) =? DONE)%Z then set_sendFlag false x
        else set_trace (x.(trace) ++ transition_events x DONE)
               (set_readyState DONE (set_sendFlag false x))
   else x).
Proof.
  unfold on_end. unfold_monad. destruct x as [rq rp st dh h sf ef rs rt rx stt sx tr ph].
  cbn. destruct sf; [|reflexivity]. rewrite setState_run. cbn.
  destruct (rs =? DONE)%Z; reflexivity.
Qed.

Lemma handleError_run error x :
  handleError error x =
  (Return tt,
   if (x.(readyState) =? DONE)%Z then failed error x
   else set_trace (x.(trace) ++ [Dispatch "readystatechange" DONE])
          (set_readyState DONE (failed error x))).
Proof.
  unfold handleError, failed. unfold_monad.
  destruct x as [rq rp st dh h sf ef rs rt rx stt sx tr ph].
  cbn. rewrite setState_run. cbn. destruct (rs =? DONE)%Z; [reflexivity|].
  unfold transition_events. cbn. rewrite orb_true_r. reflexivity.
Qed.

(** The response handler on a response that is not a redirect. *)
Lemma responseHandler_plain parse ssl resp x :
  is_redirect resp.(statusCode) = false ->
  responseHandler parse ssl resp x =
  (Return tt,
   let x1 := set_trace (x.(trace)
                          ++ (if resp.(has_setEncoding) then [SetEncoding "utf8"] else []))
               (set_response (Some resp) x) in
   set_status (JS.Num resp.(statusCode))
     (if (x.(readyState) =? HEADERS_RECEIVED)%Z then x1
      else set_trace (x1.(trace) ++ transition_events x HEADERS_RECEIVED)
             (set_readyState HEADERS_RECEIVED x1))).
Proof.
  intros Hr. unfold responseHandler. rewrite bind_run. unfold modify at 1.
  rewrite Hr. unfold_monad.
  destruct x as [rq rp st dh h sf ef rs rt rx stt sx tr ph]. cbn.
  destruct (has_setEncoding resp); cbn; rewrite setState_run; cbn;
    destruct (rs =? HEADERS_RECEIVED)%Z; cbn; rewrite ?app_nil_r; reflexivity.
Qed.

(** The response handler on a redirect. *)
Lemma responseHandler_redirect parse ssl resp x :
  is_redirect resp.(statusCode) = true ->
  responseHandler parse ssl resp x =
  (Return tt,
   let o := redirect_options parse ssl resp x in
   set_trace (x.(trace) ++ [DoRequest o; ReqEnd])
     (set_request (Some o)
        (set_settings (with_url (JS.get resp.(r_headers) "location") x.(settings))
           (set_response (Some resp) x)))).
Proof.
  intros Hr. unfold responseHandler. rewrite bind_run. unfold modify at 1.
  rewrite Hr. unfold_monad. unfold redirect_options, with_url.
  destruct x as [rq rp st dh h sf ef rs rt rx stt sx tr ph]. cbn.
  rewrite <- app_assoc. reflexivity.
Qed.

(** * Properties of the emulator *)

(** ** State changes and [open] *)

(** C4. On an asynchronous exchange a call [setState(st)] dispatches
    [readystatechange] exactly once when [st] differs from the current
    [readyState] and not at all when it equals it; and for every allowed
    method and every URL, [open] returns normally and leaves [readyState]
    at [OPENED]. *)
Theorem setState_fires_once_open_yields_opened
        (x : XHR) (st : Z) (y : XHR) (m : JS.value) (u : string) (a usr pw : JS.value) :
  JS.truthy x.(settings).(async) = true ->
  isAllowedHttpMethod m = true ->
  fired "readystatechange" (since x (exec (setState st) x))
  = (if (x.(readyState) =? st)%Z then [] else [st])
  /\ (exec (setState st) x).(readyState) = st
  /\ result (open m u a usr pw) y = Return tt
  /\ (exec (open m u a usr pw) y).(readyState) = OPENED.
Proof.
  intros Ha Hm. split; [|split].
  - unfold exec. rewrite setState_run. cbn [snd].
    destruct (x.(readyState) =? st)%Z.
    + now rewrite since_self.
    + erewrite since_app by (destruct x; reflexivity).
      unfold transition_events. rewrite Ha. cbn.
      destruct ((st =? DONE)%Z && negb (errorFlag x)); reflexivity.
  - unfold exec. rewrite setState_run. cbn [snd].
    destruct (x.(readyState) =? st)%Z eqn:E; [now apply Z.eqb_eq in E|].
    destruct x; reflexivity.
  - pose proof (open_spec m u a usr pw y) as H. cbn zeta in H. rewrite Hm in H.
    destruct H as (H1 & H2 & _). now split.
Qed.

Lemma setState_fires_once_open_yields_opened_witness :
  fired "readystatechange"
        (since opened_sample (exec (setState HEADERS_RECEIVED) opened_sample))
  = [HEADERS_RECEIVED]
  /\ (exec (setState HEADERS_RECEIVED) opened_sample).(readyState) = HEADERS_RECEIVED
  /\ result (open (JS.Str "POST") "/chat" JS.Undefined JS.Undefined JS.Undefined) initial
     = Return tt
  /\ (exec (open (JS.Str "POST") "/chat" JS.Undefined JS.Undefined JS.Undefined) initial)
       .(readyState) = OPENED.
Proof.
  apply (setState_fires_once_open_yields_opened
           opened_sample HEADERS_RECEIVED initial (JS.Str "POST") "/chat"
           JS.Undefined JS.Undefined JS.Undefined); reflexivity.
Defined.

(** ** A whole exchange *)

(** C1, as amended.  After an [open] that returned, a [send] that went out,
    a response with status 200, two body chunks and the end of the stream
    dispatch, from [send] on: [readystatechange] (still [OPENED], first thing
    in [send] and before the request is handed to the transport),
    [loadstart], [readystatechange] for [HEADERS_RECEIVED], [readystatechange]
    for [LOADING] once (at the first chunk; the second chunk finds the state
    already [LOADING] and dispatches nothing), [readystatechange] for [DONE],
    [load], [loadend]; and [responseText] ends as the first chunk followed
    by the second. *)
Theorem exchange_events_and_text
        (parse : JS.value -> Url) (agent : JS.value) (x0 : XHR)
        (m : JS.value) (u : string) (a usr pw : JS.value)
        (data : option string) (ssl : bool) (resp : Response) (c1 c2 : string) :
  let x1 := exec (open m u a usr pw) x0 in
  let x2 := exec (send parse agent data ;; responseHandler parse ssl resp ;;
                  on_data c1 ;; on_data c2 ;; on_end) x1 in
  result (open m u a usr pw) x0 = Return tt ->
  result (send parse agent data) x1 = Return tt ->
  resp.(statusCode) = 200 ->
  events (since x1 x2)
  = [ ("readystatechange", OPENED); ("loadstart", OPENED);
      ("readystatechange", HEADERS_RECEIVED);
      ("readystatechange", LOADING);
      ("readystatechange", DONE); ("load", DONE); ("loadend", DONE) ]
  /\ (exists o rest,
         since x1 x2 = Dispatch "readystatechange" OPENED :: DoRequest o :: rest)
  /\ x2.(responseText) = c1 +:+ c2
  /\ x2.(readyState) = DONE.
Proof.
  intros x1 x2 Hopen Hsend Hcode.
  pose proof (open_spec m u a usr pw x0) as Ho. cbn zeta in Ho. fold x1 in Ho.
  destruct (isAllowedHttpMethod m); [|destruct Ho as [Ho _]; congruence].
  destruct Ho as (_ & Hrs & _ & _ & Hrt & Hef & _).
  destruct (send_returns _ _ _ _ Hsend) as (ssl0 & host & _ & Hsf & Hsrv & Ha).
  assert (Hred : is_redirect resp.(statusCode) = false) by now rewrite Hcode.
  clearbody x1. clear Hsend Hopen. subst x2.
  destruct x1 as [rq rp st dh h sf ef rs rt rx stt sx tr ph].
  cbn in Hrs, Hrt, Hef, Hsf, Hsrv, Ha. subst rs rt ef sf.
  unfold exec.
  rewrite bind_run, (send_run _ _ _ _ ssl0 host) by (try reflexivity; exact Hsrv).
  cbn; rewrite Ha.
  rewrite bind_run, (responseHandler_plain _ _ _ _ Hred); cbn.
  rewrite bind_run, on_data_run; cbn.
  rewrite bind_run, on_data_run; cbn.
  rewrite on_end_run; cbn.
  unfold since, sent_actions, transition_events; cbn. rewrite Ha. cbn.
  rewrite <- !app_assoc, drop_app_length.
  destruct (JS.truthy (of_option _)), (has_setEncoding resp); cbn;
    (split; [reflexivity|split; [eauto|split; reflexivity]]).
Qed.

Lemma exchange_events_and_text_witness :
  let x1 := opened_sample in
  let x2 := exec (Sample.send None ;; Sample.responseHandler false ok_response ;;
                  on_data "ab" ;; on_data "cd" ;; on_end) x1 in
  events (since x1 x2)
  = [ ("readystatechange", OPENED); ("loadstart", OPENED);
      ("readystatechange", HEADERS_RECEIVED);
      ("readystatechange", LOADING);
      ("readystatechange", DONE); ("load", DONE); ("loadend", DONE) ]
  /\ (exists o rest,
         since x1 x2 = Dispatch "readystatechange" OPENED :: DoRequest o :: rest)
  /\ x2.(responseText) = "abcd"
  /\ x2.(readyState) = DONE.
Proof.
  apply (exchange_events_and_text sample_parse JS.Undefined initial (JS.Str "GET")
           "http://example.com/a" JS.Undefined JS.Undefined JS.Undefined
           None false ok_response "ab" "cd"); reflexivity.
Defined.

(** The sequence C1 states, with [readystatechange] dispatched for [LOADING]
    once per chunk, is not the one dispatched: on the sample exchange the
    second chunk dispatches nothing. *)
Lemma loading_not_dispatched_per_chunk :
  let x1 := opened_sample in
  let x2 := exec (Sample.send None ;; Sample.responseHandler false ok_response ;;
                  on_data "ab" ;; on_data "cd" ;; on_end) x1 in
  result (Sample.send None) x1 = Return tt
  /\ fired "readystatechange" (since x1 x2) = [OPENED; HEADERS_RECEIVED; LOADING; DONE]
  /\ events (since x1 x2)
     <> [ ("readystatechange", OPENED); ("loadstart", OPENED);
          ("readystatechange", HEADERS_RECEIVED);
          ("readystatechange", LOADING); ("readystatechange", LOADING);
          ("readystatechange", DONE); ("load", DONE); ("loadend", DONE) ].
Proof. repeat split; [vm_compute; reflexivity ..|vm_compute; discriminate]. Qed.

(** ** Body chunks and the send flag *)

(** C2 does not hold where it says a chunk arriving after [abort] is not
    appended: the data handler appends before it looks at the send flag. *)
Lemma late_chunk_is_appended :
  aborted_sample.(sendFlag) = false
  /\ aborted_sample.(responseText) = EmptyString
  /\ (exec (on_data "cd") aborted_sample).(responseText) = "cd"%string
  /\ (exec (on_data "cd") aborted_sample).(responseText) <> aborted_sample.(responseText).
Proof. repeat split; [vm_compute; reflexivity ..|vm_compute; discriminate]. Qed.

(** C2, as amended.  The data handler returns normally and always appends
    the chunk to [responseText].  With the send flag down (after [abort])
    that is all it does: [readyState] stays and nothing is dispatched.  With
    the send flag up it moves to [LOADING], dispatching nothing if the state
    was [LOADING] already and otherwise what [setState] dispatches for
    [LOADING]: one [readystatechange] on an asynchronous exchange. *)
Theorem chunk_always_appended_loading_while_sending (x : XHR) (chunk : string) :
  let x' := exec (on_data chunk) x in
  result (on_data chunk) x = Return tt
  /\ x'.(responseText) = x.(responseText) +:+ chunk
  /\ (if x.(sendFlag)
      then x'.(readyState) = LOADING
           /\ since x x'
              = (if (x.(readyState) =? LOADING)%Z then []
                 else if JS.truthy x.(settings).(async)
                      then [Dispatch "readystatechange" LOADING] else [])
      else x' = set_responseText (x.(responseText) +:+ chunk) x
           /\ x'.(readyState) = x.(readyState)
           /\ since x x' = []).
Proof.
  intros x'. subst x'. unfold exec, result. rewrite on_data_run. cbn [fst snd].
  destruct x as [rq rp st dh h sf ef rs rt rx stt sx tr ph]. cbn.
  split; [reflexivity|]. destruct sf.
  - destruct (rs =? LOADING)%Z eqn:E; cbn; (split; [reflexivity|]).
    + apply Z.eqb_eq in E. split; [exact E|apply drop_all].
    + split; [reflexivity|]. unfold transition_events. cbn.
      rewrite drop_app_length, !orb_false_r, app_nil_r. reflexivity.
  - split; [reflexivity|]. repeat split. apply drop_all.
Qed.

(** ** The send flag after a transport error *)

(** C3 fails on the error path.  [handleError] reaches [DONE] with the send
    flag still up; the [abort] inside the next [open] sees [DONE] and leaves
    the flag alone, and the [send] after that [open] is refused as already
    called.  An exchange that ends normally does not have this problem. *)
Theorem send_flag_survives_transport_error :
  failed_sample.(readyState) = DONE
  /\ failed_sample.(sendFlag) = true
  /\ (exec abort failed_sample).(sendFlag) = true
  /\ result (open (JS.Str "GET") "http://example.com/a"
                  JS.Undefined JS.Undefined JS.Undefined ;;
             Sample.send None) failed_sample
     = Throw already_sent_error
  /\ result (Sample.send None ;; Sample.responseHandler false ok_response ;;
             on_data "ab" ;; on_end ;;
             open (JS.Str "GET") "http://example.com/a"
                  JS.Undefined JS.Undefined JS.Undefined ;;
             Sample.send None) opened_sample
     = Return tt.
Proof. repeat split; vm_compute; reflexivity. Qed.

(** [handleError] never touches the send flag, whatever the state. *)
Lemma handleError_keeps_sendFlag (error : JsError) (x : XHR) :
  (exec (handleError error) x).(sendFlag) = x.(sendFlag)
  /\ (exec (handleError error) x).(readyState) = DONE.
Proof.
  unfold exec. rewrite handleError_run. cbn [snd].
  destruct (x.(readyState) =? DONE)%Z eqn:E; destruct x; cbn in *;
    [apply Z.eqb_eq in E|]; now split.
Qed.

(** ** Request headers *)

Lemma setRequestHeader_run header value x :
  setRequestHeader header value x =
  if negb (x.(readyState) =? OPENED)%Z then (Throw not_open_error, x)
  else if negb (isAllowedHttpHeader x header)
       then (Return false, set_trace (x.(trace) ++ [Warn (refusal header)]) x)
       else if x.(sendFlag) then (Throw send_flag_error, x)
            else (Return true, assigned header value x).
Proof.
  unfold setRequestHeader. unfold_monad.
  destruct (negb (_ =? _)%Z); [reflexivity|].
  destruct (negb (isAllowedHttpHeader x header)); [reflexivity|].
  destruct (sendFlag x); reflexivity.
Qed.

(** Assigning a header touches the header object only. *)
Lemma assigned_keeps name value x :
  let y := assigned name value x in
  y.(request) = x.(request) /\ y.(response) = x.(response)
  /\ y.(settings) = x.(settings) /\ y.(disableHeaderCheck) = x.(disableHeaderCheck)
  /\ y.(sendFlag) = x.(sendFlag) /\ y.(errorFlag) = x.(errorFlag)
  /\ y.(readyState) = x.(readyState) /\ y.(responseText) = x.(responseText)
  /\ y.(responseXML) = x.(responseXML) /\ y.(status) = x.(status)
  /\ y.(statusText) = x.(statusText) /\ y.(trace) = x.(trace).
Proof.
  unfold assigned. destruct (headers x !! name); [now destruct x|].
  destruct (_ && _); [destruct value|]; now destruct x.
Qed.

(** The header object after an assignment: the old one, or the old one with
    the name bound to the value. *)
Lemma assigned_headers name value x :
  (assigned name value x).(headers) = x.(headers)
  \/ (assigned name value x).(headers) = <[name := value]> x.(headers).
Proof.
  unfold assigned. destruct (headers x !! name); [right; now destruct x|].
  destruct (_ && _); [destruct value|]; (left; now destruct x) || (right; now destruct x).
Qed.

(** C5 does not hold where it says the call fails unless send has not
    started: once the request is out, setting a forbidden header is still
    refused quietly instead of failing. *)
Lemma forbidden_header_refused_after_send :
  sent_sample.(readyState) = OPENED
  /\ sent_sample.(sendFlag) = true
  /\ sent_sample.(disableHeaderCheck) = false
  /\ result (setRequestHeader "Cookie" (JS.Str "x")) sent_sample = Return false.
Proof. repeat split; vm_compute; reflexivity. Qed.

(** A forbidden name is not [__proto__], so assigning to it makes or
    overwrites an own property. *)
Lemma forbidden_is_stored header value x :
  forbidden header = true ->
  assigned header value x = set_headers (<[header := value]> x.(headers)) x.
Proof.
  intros F. unfold assigned.
  destruct (String.eqb header "__proto__") eqn:E.
  - apply String.eqb_eq in E. subst header. vm_compute in F. discriminate.
  - cbn [andb]. now destruct (headers x !! header).
Qed.

(** C5, as amended.  [setRequestHeader] fails with an invalid-state error
    when [readyState] is not [OPENED], changing nothing.  In [OPENED], a
    name that is not allowed (a name in the forbidden set, compared in lower
    case, while validation is enabled; or the empty name) is refused without
    an exception, whether or not send has started: one warning, result
    [false], the header map and the send flag as they were.  An allowed name
    then fails with an invalid-state error if send has started, and is
    otherwise accepted with result [true]; with validation disabled a
    forbidden name is an allowed one, and once accepted it is stored
    verbatim, the other headers being kept. *)
Theorem setRequestHeader_refuses_before_send_flag
        (x : XHR) (header : string) (value : JS.value) :
  let r := result (setRequestHeader header value) x in
  let x' := exec (setRequestHeader header value) x in
  isAllowedHttpHeader x header
  = x.(disableHeaderCheck) || (negb (String.eqb header EmptyString) && negb (forbidden header))
  /\ if negb (x.(readyState) =? OPENED)%Z then
       r = Throw not_open_error /\ x' = x
     else if negb (isAllowedHttpHeader x header) then
       r = Return false
       /\ since x x' = [Warn (refusal header)]
       /\ x'.(headers) = x.(headers)
       /\ x'.(sendFlag) = x.(sendFlag)
     else if x.(sendFlag) then
       r = Throw send_flag_error /\ x' = x
     else
       r = Return true
       /\ since x x' = []
       /\ if forbidden header then
            x'.(headers) !! header = Some value
            /\ forall k, k <> header -> x'.(headers) !! k = x.(headers) !! k
          else True.
Proof.
  intros r x'. subst r x'. unfold result, exec. rewrite setRequestHeader_run.
  split; [reflexivity|].
  destruct (negb (_ =? _)%Z); [now split|].
  destruct (negb (isAllowedHttpHeader x header)).
  - cbn [fst snd]. destruct x; cbn. unfold since; cbn.
    rewrite drop_app_length. now repeat split.
  - destruct (sendFlag x) eqn:E; [now split|]. cbn [fst snd].
    destruct (forbidden header) eqn:F.
    + rewrite (forbidden_is_stored _ _ _ F).
      destruct x; cbn. unfold since; cbn. rewrite drop_all.
      repeat split; [apply lookup_insert_eq|].
      intros k Hk. now apply lookup_insert_ne.
    + split; [reflexivity|]. split; [|exact I].
      unfold assigned.
      destruct (headers x !! header); [destruct x; unfold since; cbn; apply drop_all|].
      destruct (_ && _); [destruct value|]; destruct x; unfold since; cbn; apply drop_all.
Qed.

(** The two cases of the specification's example: [Cookie] on a freshly
    opened object, with the check enabled and with it disabled. *)
Example cookie_refused_then_accepted :
  let x := opened_sample in
  let y := exec (setDisableHeaderCheck true) opened_sample in
  result (setRequestHeader "Cookie" (JS.Str "x")) x = Return false
  /\ (exec (setRequestHeader "Cookie" (JS.Str "x")) x).(headers) !! "Cookie" = None
  /\ result (setRequestHeader "Cookie" (JS.Str "x")) y = Return true
  /\ (exec (setRequestHeader "Cookie" (JS.Str "x")) y).(headers) !! "Cookie"
     = Some (JS.Str "x").
Proof. repeat split; vm_compute; reflexivity. Qed.

(** The forbidden names are compared the way [toLowerCase] folds them:
    [cookie] written with a Kelvin sign for its [k] is refused as well. *)
Example kelvin_cookie_is_refused :
  forbidden ("coo" +:+ kelvin +:+ "ie") = true
  /\ result (setRequestHeader ("Coo" +:+ kelvin +:+ "ie") (JS.Str "x")) opened_sample
     = Return false.
Proof. split; vm_compute; reflexivity. Qed.

(** ** Port and [Host] header *)

Lemma determine_server_ssl u ssl host :
  determine_server u = Return (ssl, false, host) ->
  ssl = JS.strict_eq u.(protocol) (JS.Str "https:").
Proof.
  unfold determine_server, JS.strict_eq.
  destruct (protocol u) as [| |b|n|p]; try discriminate; [now intros [= <- <-]|].
  destruct (String.eqb_spec p "https:") as [->|Hp]; [now intros [= <- <-]|].
  rewrite bool_decide_eq_false_2 by congruence.
  destruct (String.eqb p "http:"); [now intros [= <- <-]|].
  destruct (String.eqb p "file:"); [discriminate|].
  destruct (String.eqb p EmptyString); [now intros [= <- <-]|discriminate].
Qed.

(** With a resolver that never reports a port as a number, the two tests
    of the [Host] block only match a port that was defaulted. *)
Lemma text_port_omitted_only_when_defaulted ssl u :
  (forall n, u.(port) <> JS.Num n) ->
  omits_port ssl (effective_port ssl u) = true ->
  JS.truthy u.(port) = false
  /\ effective_port ssl u = JS.Num (if ssl then 443 else 80).
Proof.
  intros Htext. unfold omits_port, effective_port, JS.or, JS.strict_eq.
  destruct (JS.truthy (port u)); [|now split].
  rewrite !bool_decide_eq_false_2 by apply Htext. now destruct ssl.
Qed.

(** The [Host] block as the guard is written, for any resolver.  For a
    [send] that gets past the protocol check, with [ssl] set exactly for
    [https:]: the effective port is the port of the URL when it has one and
    otherwise 443 under [ssl] and 80 without; the [Host] header is the host
    name alone exactly when the guard's two tests say so, and otherwise the
    host name, a colon and the port of the URL; every request issued
    carries that port and that header. *)
Lemma host_header_follows_effective_port
        (parse : JS.value -> Url) (agent : JS.value) (data : option string)
        (x : XHR) (ssl : bool) (host : JS.value) :
  x.(readyState) = OPENED -> x.(sendFlag) = false ->
  determine_server (parse x.(settings).(url)) = Return (ssl, false, host) ->
  let u := parse x.(settings).(url) in
  let x' := exec (send parse agent data) x in
  let eport := effective_port ssl u in
  ssl = JS.strict_eq u.(protocol) (JS.Str "https:")
  /\ eport = (if JS.truthy u.(port) then u.(port) else JS.Num (if ssl then 443 else 80))
  /\ x'.(headers) !! "Host"
     = Some (if (ssl && bool_decide (eport = JS.Num 443)) || bool_decide (eport = JS.Num 80)
             then u.(hostname)
             else JS.Str (JS.to_string u.(hostname) +:+ ":" +:+ JS.to_string u.(port)))
  /\ Forall (fun o => o.(o_port) = eport
                      /\ o.(o_headers) !! "Host" = x'.(headers) !! "Host")
            (requests (since x x')).
Proof.
  intros Hrs Hsf Hsrv u x' eport.
  assert (Hhost : forall y, y.(headers) = outgoing_headers x.(settings) ssl u data x.(headers) ->
            y.(headers) !! "Host"
            = Some (if (ssl && bool_decide (eport = JS.Num 443)) || bool_decide (eport = JS.Num 80)
                    then u.(hostname)
                    else JS.Str (JS.to_string u.(hostname) +:+ ":" +:+ JS.to_string u.(port)))).
  { intros y ->. rewrite outgoing_host. unfold host_header, omits_port, JS.strict_eq.
    fold eport. now destruct (_ || _). }
  split; [exact (determine_server_ssl _ _ _ Hsrv)|]. split; [reflexivity|].
  subst x'. unfold exec. rewrite (send_run _ _ _ _ ssl host Hrs Hsf Hsrv). fold u.
  destruct (JS.truthy x.(settings).(async)); cbn [snd].
  - split; [apply Hhost; destruct x; reflexivity|].
    erewrite since_app by (destruct x; reflexivity).
    assert (E : requests (sent_actions (sent_options agent ssl host u data x)
                                       (sent_body x.(settings) data))
                = [sent_options agent ssl host u data x]).
    { unfold sent_actions. now destruct (JS.truthy (of_option _)). }
    rewrite E. constructor; [|constructor].
    split; [reflexivity|]. destruct x; reflexivity.
  - split; [apply Hhost; destruct x; reflexivity|].
    erewrite since_app by (destruct x; cbn; symmetry; apply app_nil_r). constructor.
Qed.

Lemma host_header_follows_effective_port_witness :
  let x' := exec (Sample.send None) opened_sample in
  let u := sample_parse opened_sample.(settings).(url) in
  let eport := effective_port false u in
  false = JS.strict_eq u.(protocol) (JS.Str "https:")
  /\ eport = (if JS.truthy u.(port) then u.(port) else JS.Num 80)
  /\ x'.(headers) !! "Host"
     = Some (if (false && bool_decide (eport = JS.Num 443)) || bool_decide (eport = JS.Num 80)
             then u.(hostname)
             else JS.Str (JS.to_string u.(hostname) +:+ ":" +:+ JS.to_string u.(port)))
  /\ Forall (fun o => o.(o_port) = eport
                      /\ o.(o_headers) !! "Host" = x'.(headers) !! "Host")
            (requests (since opened_sample x')).
Proof.
  apply (host_header_follows_effective_port sample_parse JS.Undefined None
           opened_sample false (JS.Str "example.com")); reflexivity.
Defined.

(** The second test of the guard has no [ssl] in it.  Were the resolver to
    report ports as numbers, an [https] URL naming port 80 would get the
    bare host name, though 80 is not the port [https] defaults to. *)
Lemma https_port_80_omits_suffix :
  let x' := exec (send numeric_parse JS.Undefined None) opened_sample in
  result (send numeric_parse JS.Undefined None) opened_sample = Return tt
  /\ map o_port (requests (since opened_sample x')) = [JS.Num 80]
  /\ map o_protocol (requests (since opened_sample x')) = [JS.Str "https:"]
  /\ x'.(headers) !! "Host" = Some (JS.Str "example.com")
  /\ JS.Num 80 <> JS.Num 443.
Proof. repeat split; [vm_compute; reflexivity ..|discriminate]. Qed.

(** With ports reported as text the guard's two tests come to one: the
    effective port is the default of the scheme. *)
Lemma omits_port_text ssl u :
  text_port u = true ->
  (ssl && bool_decide (effective_port ssl u = JS.Num 443))
  || bool_decide (effective_port ssl u = JS.Num 80)
  = bool_decide (effective_port ssl u = JS.Num (if ssl then 443 else 80)).
Proof.
  unfold text_port, effective_port, JS.or.
  destruct (port u) as [| |b|n|p]; try discriminate; intros _;
    try (now destruct ssl).
  - destruct b; cbn [JS.truthy]; [|now destruct ssl].
    rewrite !bool_decide_eq_false_2 by discriminate. now destruct ssl.
  - destruct (JS.truthy (JS.Str p)); [|now destruct ssl].
    rewrite !bool_decide_eq_false_2 by discriminate. now destruct ssl.
Qed.

(** C6.  For a [send] that gets past the state and protocol checks, on a
    URL whose port the resolver reports as text, with [ssl] set exactly
    for [https:]: the effective port is the port of the URL when it has one
    and otherwise 443 under [ssl] and 80 without; the [Host] header is the
    host name alone exactly when the effective port is that default of the
    scheme, and otherwise the host name, a colon and the port of the URL;
    every request issued carries that port and that header. *)
Theorem host_header_omits_default_port
        (parse : JS.value -> Url) (agent : JS.value) (data : option string)
        (x : XHR) (ssl : bool) (host : JS.value) :
  x.(readyState) = OPENED -> x.(sendFlag) = false ->
  determine_server (parse x.(settings).(url)) = Return (ssl, false, host) ->
  text_port (parse x.(settings).(url)) = true ->
  let u := parse x.(settings).(url) in
  let x' := exec (send parse agent data) x in
  let eport := effective_port ssl u in
  let default := JS.Num (if ssl then 443 else 80) in
  ssl = JS.strict_eq u.(protocol) (JS.Str "https:")
  /\ eport = (if JS.truthy u.(port) then u.(port) else default)
  /\ x'.(headers) !! "Host"
     = Some (if bool_decide (eport = default)
             then u.(hostname)
             else JS.Str (JS.to_string u.(hostname) +:+ ":" +:+ JS.to_string u.(port)))
  /\ Forall (fun o => o.(o_port) = eport
                      /\ o.(o_headers) !! "Host" = x'.(headers) !! "Host")
            (requests (since x x')).
Proof.
  intros Hrs Hsf Hsrv Htext u x' eport default.
  pose proof (host_header_follows_effective_port parse agent data x ssl host Hrs Hsf Hsrv) as H.
  cbn zeta in H. fold u x' eport in H. destruct H as (H1 & H2 & H3 & H4).
  repeat split; try assumption.
  rewrite H3. subst eport default. now rewrite (omits_port_text ssl u Htext).
Qed.

Lemma host_header_omits_default_port_witness :
  let x' := exec (Sample.send None) port_sample in
  let u := sample_parse port_sample.(settings).(url) in
  let eport := effective_port true u in
  true = JS.strict_eq u.(protocol) (JS.Str "https:")
  /\ eport = (if JS.truthy u.(port) then u.(port) else JS.Num 443)
  /\ x'.(headers) !! "Host"
     = Some (if bool_decide (eport = JS.Num 443)
             then u.(hostname)
             else JS.Str (JS.to_string u.(hostname) +:+ ":" +:+ JS.to_string u.(port)))
  /\ Forall (fun o => o.(o_port) = eport
                      /\ o.(o_headers) !! "Host" = x'.(headers) !! "Host")
            (requests (since port_sample x')).
Proof.
  exact (host_header_omits_default_port sample_parse JS.Undefined None
           port_sample true (JS.Str "example.com") eq_refl eq_refl eq_refl eq_refl).
Defined.

(** The three kinds of URL: no port under [http] and under [https], and a
    port of its own. *)
Example host_header_samples :
  (exec (Sample.send None) opened_sample).(headers) !! "Host" = Some (JS.Str "example.com")
  /\ (exec (open (JS.Str "GET") "https://example.com/a"
                 JS.Undefined JS.Undefined JS.Undefined ;;
            Sample.send None) initial).(headers) !! "Host" = Some (JS.Str "example.com")
  /\ (exec (Sample.send None) port_sample).(headers) !! "Host"
     = Some (JS.Str "example.com:8443")
  /\ map o_port (requests (since port_sample (exec (Sample.send None) port_sample)))
     = [JS.Str "8443"].
Proof. split; [|split; [|split]]; vm_compute; reflexivity. Qed.

(** ** The settings record over whole runs *)

Lemma send_settings parse agent data x :
  password_settled x.(settings) ->
  (exec (send parse agent data) x).(settings) = x.(settings).
Proof.
  unfold password_settled, exec. intros Hp.
  destruct (Z.eq_dec x.(readyState) OPENED) as [Hrs|Hrs];
    [|now rewrite send_not_opened].
  destruct (sendFlag x) eqn:Hsf; [now rewrite send_already_sent|].
  destruct (determine_server (parse x.(settings).(url))) as [[[ssl [|]] host]|e] eqn:Hsrv.
  - now rewrite (send_local _ _ _ _ ssl host).
  - rewrite (send_run _ _ _ _ ssl host) by assumption.
    assert (E : with_password (auth_password x.(settings)) x.(settings) = x.(settings)).
    { unfold auth_password. rewrite Hp. now destruct (settings x). }
    destruct (JS.truthy x.(settings).(async)); cbn [snd];
      destruct x; cbn in *; exact E.
  - now rewrite (send_bad_protocol _ _ _ _ e).
Qed.

Lemma call_settings parse agent c x :
  password_settled x.(settings) ->
  (call parse agent c x).(settings) = settings_after c x.(settings).
Proof.
  intros Hp. destruct c as [m u a usr pw|b|h v|data| |ssl resp|chunk| |e]; cbn [call settings_after].
  - pose proof (open_spec m u a usr pw x) as H. cbn zeta in H.
    destruct (isAllowedHttpMethod m); tauto.
  - now destruct x.
  - unfold exec. rewrite setRequestHeader_run.
    repeat match goal with |- context [if ?b then _ else _] => destruct b end;
      try (now destruct x); apply assigned_keeps.
  - now apply send_settings.
  - pose proof (abort_spec x) as H. cbn zeta in H. tauto.
  - unfold exec. destruct (is_redirect resp.(statusCode)) eqn:E.
    + rewrite responseHandler_redirect by assumption. now destruct x.
    + rewrite responseHandler_plain by assumption.
      destruct (_ =? _)%Z; now destruct x.
  - unfold exec. rewrite on_data_run. cbn [snd].
    repeat match goal with |- context [if ?b then _ else _] => destruct b end;
      now destruct x.
  - unfold exec. rewrite on_end_run. cbn [snd].
    repeat match goal with |- context [if ?b then _ else _] => destruct b end;
      now destruct x.
  - unfold exec, on_error. rewrite handleError_run. cbn [snd].
    destruct (_ =? _)%Z; now destruct x.
Qed.

Lemma settings_after_settled c st :
  password_settled st -> password_settled (settings_after c st).
Proof.
  unfold password_settled. intros Hp. destruct c; cbn [settings_after]; try assumption.
  - destruct (isAllowedHttpMethod m); [|assumption]. cbn.
    unfold JS.or at 2. destruct (JS.truthy pw) eqn:E.
    + destruct pw; [discriminate E|..]; apply andb_false_r.
    + apply andb_false_r.
  - destruct (is_redirect _); assumption.
Qed.

Lemma run_settled parse agent cs x :
  password_settled x.(settings) ->
  password_settled (run parse agent cs x).(settings).
Proof.
  revert x. induction cs as [|c cs IH]; intros x Hp; [exact Hp|].
  cbn. apply IH. rewrite call_settings by assumption.
  now apply settings_after_settled.
Qed.

(** C7 does not hold for redirects: following one overwrites
    [settings.url] with the [Location] header. *)
Lemma redirect_rewrites_settings_url :
  let x := sent_sample in
  let x' := exec (Sample.responseHandler false (redirect_response 302)) x in
  x.(settings).(url) = JS.Str "http://example.com/a"
  /\ x'.(settings).(url) = JS.Str "http://example.com/b"
  /\ x'.(settings) <> x.(settings).
Proof. repeat split; [vm_compute; reflexivity ..|vm_compute; discriminate]. Qed.

(** C7, as amended.  In any state reached from the fresh object by method
    calls and transport callbacks, the next call leaves the settings as
    they are unless it is an [open] with an allowed method, which sets all
    five fields, or the response handler on a 302, 303 or 307, which
    replaces [url] by the [Location] header and leaves [method], [async],
    [user] and [password] as they are.  In particular [send] and [abort]
    change no field. *)
Theorem settings_change_only_by_open_and_redirect
        (parse : JS.value -> Url) (agent : JS.value) (cs : list Call) (c : Call) :
  let x := run parse agent cs initial in
  let x' := call parse agent c x in
  x'.(settings)
  = match c with
    | Open m u a usr pw =>
        if isAllowedHttpMethod m
        then {| method := m; url := JS.Str u;
                async := if JS.is_boolean a then a else JS.Bool true;
                user := JS.or usr JS.Null; password := JS.or pw JS.Null |}
        else x.(settings)
    | OnResponse _ resp =>
        if is_redirect resp.(statusCode)
        then {| method := x.(settings).(method);
                url := JS.get resp.(r_headers) "location";
                async := x.(settings).(async);
                user := x.(settings).(user);
                password := x.(settings).(password) |}
        else x.(settings)
    | _ => x.(settings)
    end.
Proof.
  intros x x'. subst x'.
  rewrite call_settings by (apply run_settled; reflexivity).
  destruct c; try reflexivity. cbn [settings_after]. unfold opened_settings.
  now destruct (JS.is_boolean a).
Qed.

(** ** Redirects *)



(** ** Synchronous mode *)

(** After an [open] with [async] false that returned, on an object
    whose send flag was consistent, [send] throws for every method, URL,
    credentials and body, and what it throws is one of the three "not
    supported" errors: the one for synchronous requests whenever the URL's
    protocol is one [send] accepts.  Nothing reaches the transport (nothing
    is appended to the trace at all, no request handle is stored) and the
    send flag stays down. *)
Lemma synchronous_send_not_supported
        (parse : JS.value -> Url) (agent : JS.value) (x : XHR)
        (m : JS.value) (u : string) (usr pw : JS.value) (data : option string) :
  send_flag_consistent x = true ->
  result (open m u (JS.Bool false) usr pw) x = Return tt ->
  let x1 := exec (open m u (JS.Bool false) usr pw) x in
  let x2 := exec (send parse agent data) x1 in
  exists e,
    result (send parse agent data) x1 = Throw e
    /\ includes "not supported" e = true
    /\ e = match determine_server (parse (JS.Str u)) with
           | Return (_, false, _) => sync_error
           | Return (_, true, _) => local_error
           | Throw _ => protocol_error
           end
    /\ since x1 x2 = []
    /\ x2.(request) = None
    /\ x2.(sendFlag) = false.
Proof.
  intros Hc Hopen x1 x2.
  pose proof (open_spec m u (JS.Bool false) usr pw x) as Ho. cbn zeta in Ho. fold x1 in Ho.
  destruct (isAllowedHttpMethod m); [|destruct Ho as [Ho _]; congruence].
  destruct Ho as (_ & Hrs & Hst & _ & _ & _ & _ & Hrq & Hsf).
  assert (Hsf' : x1.(sendFlag) = false).
  { rewrite Hsf. unfold send_flag_consistent, mid_exchange in *.
    destruct (sendFlag x);
      [|now match goal with |- (if ?b then _ else _) = _ => destruct b end].
    cbn in Hc. apply andb_true_iff in Hc as [H1 H2]. rewrite H1, H2.
    now rewrite orb_true_r. }
  assert (Hurl : x1.(settings).(url) = JS.Str u) by now rewrite Hst.
  assert (Hasync : JS.truthy x1.(settings).(async) = false) by now rewrite Hst.
  subst x2. clearbody x1. clear Hopen Hsf Hc. unfold result, exec.
  destruct (determine_server (parse (JS.Str u))) as [[[ssl [|]] host]|e] eqn:Hsrv;
    rewrite <- Hurl in Hsrv.
  - rewrite (send_local _ _ _ _ ssl host) by assumption. cbn [fst snd].
    exists local_error. rewrite since_self.
    repeat split; assumption.
  - rewrite (send_run _ _ _ _ ssl host) by assumption. rewrite Hasync. cbn [fst snd].
    exists sync_error. destruct x1; cbn in *.
    repeat split; try assumption. apply drop_all.
  - rewrite (send_bad_protocol _ _ _ _ e) by assumption. cbn [fst snd].
    exists protocol_error. rewrite since_self.
    rewrite (determine_server_throw _ _ Hsrv).
    repeat split; try assumption.
Qed.

Lemma synchronous_send_not_supported_witness :
  let x1 := exec (open (JS.Str "GET") "http://example.com/a" (JS.Bool false)
                       JS.Undefined JS.Undefined) initial in
  let x2 := exec (Sample.send None) x1 in
  exists e,
    result (Sample.send None) x1 = Throw e
    /\ includes "not supported" e = true
    /\ e = sync_error
    /\ since x1 x2 = []
    /\ x2.(request) = None
    /\ x2.(sendFlag) = false.
Proof.
  apply (synchronous_send_not_supported sample_parse JS.Undefined initial
           (JS.Str "GET") "http://example.com/a" JS.Undefined JS.Undefined None);
    reflexivity.
Defined.

(** C9 fails after a transport error, by the defect of C3.  The send flag
    that [handleError] left up survives the next [open], and the [send]
    after an [open] with [async] false is then refused as already called,
    which is not a "not supported" error, with the send flag up.  On a
    fresh object, and after an exchange that ended normally, the same
    [open] and [send] give the error for synchronous requests. *)
Theorem synchronous_send_after_transport_error :
  let sync_open := open (JS.Str "GET") "http://example.com/a" (JS.Bool false)
                        JS.Undefined JS.Undefined in
  let x1 := exec sync_open failed_sample in
  let x2 := exec (Sample.send None) x1 in
  result sync_open failed_sample = Return tt
  /\ x1.(settings).(async) = JS.Bool false
  /\ result (Sample.send None) x1 = Throw already_sent_error
  /\ includes "not supported" already_sent_error = false
  /\ x2.(sendFlag) = true
  /\ requests (since x1 x2) = []
  /\ result (sync_open ;; Sample.send None) initial = Throw sync_error
  /\ result (Sample.send None ;; Sample.responseHandler false ok_response ;;
             on_data "ab" ;; on_end ;; sync_open ;; Sample.send None) opened_sample
     = Throw sync_error.
Proof. cbv zeta. repeat (split; [vm_compute; reflexivity|]). vm_compute. reflexivity. Qed.

(** ** Basic authentication without a password *)

(** C10.  When [open] is given a user and no password, it stores
    [password] as [null]; the test for an undefined password in [send] is
    therefore false and the password is still [null] after [send]; and the
    [Authorization] header, in the header map and in the request issued, is
    ['Basic ' + user + ':' + null], which ends in [":null"] and is not
    ['Basic ' + user + ':'] followed by the empty string. *)
Theorem omitted_password_sent_as_null
        (parse : JS.value -> Url) (agent : JS.value) (x : XHR)
        (m : JS.value) (u : string) (a usr : JS.value) (data : option string) :
  JS.truthy usr = true ->
  result (open m u a usr JS.Undefined) x = Return tt ->
  let x1 := exec (open m u a usr JS.Undefined) x in
  result (send parse agent data) x1 = Return tt ->
  let x2 := exec (send parse agent data) x1 in
  let sent := JS.Str ((("Basic " +:+ JS.to_string usr) +:+ ":") +:+ "null") in
  x1.(settings).(password) = JS.Null
  /\ JS.is_undefined x1.(settings).(password) = false
  /\ x2.(settings).(password) = JS.Null
  /\ x2.(headers) !! "Authorization" = Some sent
  /\ sent <> JS.Str ((("Basic " +:+ JS.to_string usr) +:+ ":") +:+ EmptyString)
  /\ Forall (fun o => o.(o_headers) !! "Authorization" = Some sent)
            (requests (since x1 x2)).
Proof.
  intros Hu Hopen x1 Hsend x2 sent.
  pose proof (open_spec m u a usr JS.Undefined x) as Ho. cbn zeta in Ho. fold x1 in Ho.
  destruct (isAllowedHttpMethod m); [|destruct Ho as [Ho _]; congruence].
  destruct Ho as (_ & _ & Hst & _).
  destruct (send_returns _ _ _ _ Hsend) as (ssl & host & Hrs & Hsf & Hsrv & Ha).
  assert (Hpw : x1.(settings).(password) = JS.Null) by now rewrite Hst.
  assert (Husr : x1.(settings).(user) = usr).
  { rewrite Hst. cbn. unfold JS.or. now rewrite Hu. }
  assert (Hauth : outgoing_headers x1.(settings) ssl (parse x1.(settings).(url)) data
                    x1.(headers) !! "Authorization" = Some sent).
  { rewrite outgoing_authorization by now rewrite Husr.
    unfold auth_password. rewrite Husr, Hpw, Hu. reflexivity. }
  subst x2. clearbody x1. clear Hopen Hsend Hst. unfold exec.
  rewrite (send_run _ _ _ _ ssl host Hrs Hsf Hsrv), Ha. cbn [snd].
  split; [exact Hpw|]. split; [now rewrite Hpw|].
  split; [|split; [|split]].
  - destruct x1 as [rq rp [m' u' a' usr' pw'] ? ? ? ? ? ? ? ? ? ? ?].
    cbn in Hpw, Husr. subst. cbn. unfold auth_password. cbn. now rewrite andb_false_r.
  - destruct x1; exact Hauth.
  - subst sent. intros [= E]. apply (inj (String.app _)) in E. discriminate E.
  - erewrite since_app by (destruct x1; reflexivity).
    assert (E : forall o b, requests (sent_actions o b) = [o]).
    { intros o b. unfold sent_actions. now destruct (JS.truthy (of_option _)). }
    rewrite E. constructor; [exact Hauth|constructor].
Qed.

Lemma omitted_password_sent_as_null_witness :
  let x1 := exec (open (JS.Str "GET") "https://example.com/a" JS.Undefined
                       (JS.Str "bob") JS.Undefined) initial in
  let x2 := exec (Sample.send None) x1 in
  let sent := JS.Str "Basic bob:null" in
  x1.(settings).(password) = JS.Null
  /\ JS.is_undefined x1.(settings).(password) = false
  /\ x2.(settings).(password) = JS.Null
  /\ x2.(headers) !! "Authorization" = Some sent
  /\ sent <> JS.Str "Basic bob:"
  /\ Forall (fun o => o.(o_headers) !! "Authorization" = Some sent)
            (requests (since x1 x2)).
Proof.
  apply (omitted_password_sent_as_null sample_parse JS.Undefined initial
           (JS.Str "GET") "https://example.com/a" JS.Undefined (JS.Str "bob") None);
    reflexivity.
Defined.


(** * Further properties *)

(** ** Request headers read back *)

Lemma getRequestHeader_run name x :
  getRequestHeader name x =
  (Return match x.(headers) !! name with
          | Some v => Value (if JS.truthy v then v else JS.Str EmptyString)
          | None => if x.(plain_headers) && JS.inherited name then Inherited name
                    else Value (JS.Str EmptyString)
          end, x).
Proof.
  unfold getRequestHeader. unfold_monad.
  destruct (headers x !! name) as [v|]; [now destruct (JS.truthy v)|].
  now destruct (_ && _).
Qed.

(** X1.  A header that [setRequestHeader] accepted under a name other than
    [__proto__] is what [getRequestHeader] returns under the same name, the
    empty string standing in for a falsy value; under every other name,
    also one that differs only in letter case, [getRequestHeader] returns
    what it returned before. *)
Theorem accepted_header_is_read_back
        (x : XHR) (header other : string) (value : JS.value) :
  result (setRequestHeader header value) x = Return true ->
  String.eqb header "__proto__" = false ->
  let x' := exec (setRequestHeader header value) x in
  result (getRequestHeader other) x'
  = (if String.eqb other header
     then Return (Value (if JS.truthy value then value else JS.Str EmptyString))
     else result (getRequestHeader other) x).
Proof.
  intros Hset Hp x'. subst x'. unfold result, exec in *.
  rewrite setRequestHeader_run in *. rewrite !getRequestHeader_run.
  destruct (negb (_ =? _)%Z); [discriminate|].
  destruct (negb (isAllowedHttpHeader x header)); [discriminate|].
  destruct (sendFlag x); [discriminate|]. cbn [fst snd].
  assert (E : assigned header value x = set_headers (<[header:=value]> (headers x)) x).
  { unfold assigned. rewrite Hp. cbn [andb]. now destruct (headers x !! header). }
  rewrite E.
  replace (headers (set_headers (<[header:=value]> (headers x)) x))
    with (<[header:=value]> (headers x)) by now destruct x.
  replace (plain_headers (set_headers (<[header:=value]> (headers x)) x))
    with (plain_headers x) by now destruct x.
  destruct (String.eqb_spec other header) as [->|Hne].
  - now rewrite lookup_insert_eq.
  - now rewrite lookup_insert_ne by congruence.
Qed.

Lemma accepted_header_is_read_back_witness :
  let x' := exec (setRequestHeader "X-Token" (JS.Str "abc")) opened_sample in
  result (getRequestHeader "X-Token") x' = Return (Value (JS.Str "abc"))
  /\ result (getRequestHeader "x-token") x' = Return (Value (JS.Str EmptyString)).
Proof.
  split.
  - exact (accepted_header_is_read_back opened_sample "X-Token" "X-Token" (JS.Str "abc")
             eq_refl eq_refl).
  - exact (accepted_header_is_read_back opened_sample "X-Token" "x-token" (JS.Str "abc")
             eq_refl eq_refl).
Defined.

(** The name [__proto__] is accepted like any allowed name, and a string
    assigned to it is dropped: what is read back is the inherited member. *)
Example proto_header_is_accepted_and_dropped :
  let x' := exec (setRequestHeader "__proto__" (JS.Str "abc")) opened_sample in
  result (setRequestHeader "__proto__" (JS.Str "abc")) opened_sample = Return true
  /\ x'.(headers) = opened_sample.(headers)
  /\ result (getRequestHeader "__proto__") x' = Return (Inherited "__proto__").
Proof. cbv zeta. split; [|split]; vm_compute; reflexivity. Qed.

(** What [open] leaves behind when it refuses the method. *)
Lemma open_refused m u a usr pw x :
  isAllowedHttpMethod m = false ->
  open m u a usr pw x = (Throw security_error, set_errorFlag false (exec abort x)).
Proof.
  intros Hm. unfold open. rewrite bind_run.
  pose proof (abort_spec x) as H. unfold exec, result in *. cbn zeta in H.
  destruct (abort x) as [r xa]. cbn [fst snd] in *. destruct H as [-> _].
  unfold_monad. now rewrite Hm.
Qed.

Lemma open_headers m u a usr pw x :
  (exec (open m u a usr pw) x).(headers) = defaultHeaders.
Proof.
  destruct (isAllowedHttpMethod m) eqn:Hm.
  - pose proof (open_spec m u a usr pw x) as H. cbn zeta in H. rewrite Hm in H. tauto.
  - unfold exec. rewrite open_refused by assumption. cbn [snd].
    pose proof (abort_spec x) as H. cbn zeta in H.
    destruct (exec abort x); cbn in *. tauto.
Qed.

Lemma open_plain_headers m u a usr pw x :
  (exec (open m u a usr pw) x).(plain_headers) = true.
Proof.
  pose proof (abort_plain_headers x) as A.
  pose proof (abort_spec x) as H. cbn zeta in H. destruct H as [H _].
  unfold exec, result, open in *. rewrite !bind_run.
  destruct (abort x) as [r xa]; cbn [fst snd] in *. subst r.
  unfold_monad. destruct (isAllowedHttpMethod m); cbn.
  - rewrite setState_run.
    destruct xa as [rq rp st dh h sf ef rs rt rx stt sx tr ph]; cbn in *.
    repeat match goal with |- context [if ?b then _ else _] => destruct b end; exact A.
  - destruct xa; cbn in *. exact A.
Qed.

(** X2.  Whatever headers were set before, after [open], accepted or
    refused, [getRequestHeader] knows the two default headers; under a name
    that objects inherit it returns the inherited member, and under every
    other name the empty string. *)
Theorem open_forgets_request_headers
        (x : XHR) (m : JS.value) (u : string) (a usr pw : JS.value) (name : string) :
  result (getRequestHeader name) (exec (open m u a usr pw) x)
  = Return (if String.eqb name "User-Agent" then Value (JS.Str "node-XMLHttpRequest")
            else if String.eqb name "Accept" then Value (JS.Str "*/*")
            else if JS.inherited name then Inherited name
            else Value (JS.Str EmptyString)).
Proof.
  unfold result. rewrite getRequestHeader_run. cbn [fst].
  rewrite open_headers, open_plain_headers. cbn [andb].
  unfold defaultHeaders.
  destruct (String.eqb_spec name "User-Agent") as [->|H1]; [reflexivity|].
  rewrite lookup_insert_ne by congruence.
  destruct (String.eqb_spec name "Accept") as [->|H2]; [reflexivity|].
  rewrite lookup_insert_ne by congruence. now rewrite lookup_empty.
Qed.

(** ** [send] in the wrong state *)

(** Where a [send] that returned leaves the emulator. *)
Lemma send_success parse agent data x :
  result (send parse agent data) x = Return tt ->
  exists (ssl : bool) (host : JS.value),
    x.(readyState) = OPENED /\ x.(sendFlag) = false
    /\ determine_server (parse x.(settings).(url)) = Return (ssl, false, host)
    /\ JS.truthy x.(settings).(async) = true
    /\ let u := parse x.(settings).(url) in
       let o := sent_options agent ssl host u data x in
       exec (send parse agent data) x
       = set_trace (x.(trace) ++ sent_actions o (sent_body x.(settings) data))
           (set_request (Some o) (set_sendFlag true (prepared ssl u data x))).
Proof.
  intros H. destruct (send_returns _ _ _ _ H) as (ssl & host & Hrs & Hsf & Hsrv & Ha).
  exists ssl, host. repeat split; try assumption.
  cbn zeta. unfold exec. now rewrite (send_run _ _ _ _ ssl host Hrs Hsf Hsrv), Ha.
Qed.

(** X3.  While a request is out, a second [send] throws the already-called
    error and changes nothing: no second request, no event, the first
    request's handle kept. *)
Theorem second_send_is_refused
        (parse : JS.value -> Url) (agent : JS.value) (d1 d2 : option string) (x : XHR) :
  result (send parse agent d1) x = Return tt ->
  let x1 := exec (send parse agent d1) x in
  send parse agent d2 x1 = (Throw already_sent_error, x1).
Proof.
  intros H x1. destruct (send_success _ _ _ _ H) as (ssl & host & Hrs & _ & _ & _ & E).
  cbn zeta in E. fold x1 in E. apply send_already_sent; rewrite E; destruct x; cbn in *;
    [exact Hrs|reflexivity].
Qed.

Lemma second_send_is_refused_witness :
  let x1 := exec (send sample_parse JS.Undefined None) opened_sample in
  send sample_parse JS.Undefined (Some "again") x1 = (Throw already_sent_error, x1).
Proof.
  apply (second_send_is_refused sample_parse JS.Undefined None (Some "again") opened_sample).
  reflexivity.
Defined.

(** X4.  [send] needs an [open] first: on the fresh object, after [abort]
    from any state and after [handleError] from any state it throws the
    must-be-opened error and changes nothing. *)
Theorem send_needs_open
        (parse : JS.value -> Url) (agent : JS.value) (data : option string)
        (error : JsError) (x : XHR) :
  send parse agent data initial = (Throw not_opened_error, initial)
  /\ send parse agent data (exec abort x) = (Throw not_opened_error, exec abort x)
  /\ send parse agent data (exec (handleError error) x)
     = (Throw not_opened_error, exec (handleError error) x).
Proof.
  split; [|split]; apply send_not_opened.
  - discriminate.
  - pose proof (abort_spec x) as H. cbn zeta in H.
    destruct H as (_ & -> & _). discriminate.
  - destruct (handleError_keeps_sendFlag error x) as [_ ->]. discriminate.
Qed.

(** ** The body of the request *)

Lemma prepared_headers ssl u data x :
  (prepared ssl u data x).(headers) = outgoing_headers x.(settings) ssl u data x.(headers).
Proof. now destruct x. Qed.

Lemma sent_headers parse agent data x :
  result (send parse agent data) x = Return tt ->
  exists (ssl : bool) (host : JS.value) (o : Options),
    (exec (send parse agent data) x).(headers)
    = length_headers x.(settings) data
        (auth_headers x.(settings)
           (<["Host" := host_header ssl (parse x.(settings).(url))]> x.(headers)))
    /\ since x (exec (send parse agent data) x) = sent_actions o (sent_body x.(settings) data).
Proof.
  intros H. destruct (send_success _ _ _ _ H) as (ssl & host & _ & _ & _ & _ & E).
  cbn zeta in E. exists ssl, host. eexists. rewrite E. split.
  - now destruct x.
  - apply since_app. now destruct x.
Qed.

Lemma writes_sent_actions o body :
  writes (sent_actions o body)
  = if JS.truthy (of_option body) then [default EmptyString body] else [].
Proof. unfold sent_actions. now destruct (JS.truthy _). Qed.

(** X5.  A [GET] or [HEAD] request carries no body whatever [send] is
    given: nothing is written to the request, and [send] leaves the
    [Content-Length] and [Content-Type] headers as they were. *)
Theorem get_and_head_carry_no_body
        (parse : JS.value -> Url) (agent : JS.value) (data : option string) (x : XHR) :
  result (send parse agent data) x = Return tt ->
  x.(settings).(method) = JS.Str "GET" \/ x.(settings).(method) = JS.Str "HEAD" ->
  let x' := exec (send parse agent data) x in
  writes (since x x') = []
  /\ x'.(headers) !! "Content-Length" = x.(headers) !! "Content-Length"
  /\ x'.(headers) !! "Content-Type" = x.(headers) !! "Content-Type".
Proof.
  intros H Hm x'. destruct (sent_headers _ _ _ _ H) as (ssl & host & o & Hh & Hs).
  fold x' in Hh, Hs. rewrite Hh, Hs, writes_sent_actions.
  assert (Hb : bodyless x.(settings) = true).
  { unfold bodyless. destruct Hm as [-> | ->]; reflexivity. }
  unfold sent_body, length_headers, auth_headers. rewrite Hb.
  split; [reflexivity|].
  destruct (JS.truthy (user _));
    rewrite ?lookup_insert_ne by discriminate; now split.
Qed.

Lemma get_and_head_carry_no_body_witness :
  let x' := exec (send sample_parse JS.Undefined (Some "ignored")) opened_sample in
  writes (since opened_sample x') = []
  /\ x'.(headers) !! "Content-Length" = opened_sample.(headers) !! "Content-Length"
  /\ x'.(headers) !! "Content-Type" = opened_sample.(headers) !! "Content-Type".
Proof.
  apply (get_and_head_carry_no_body sample_parse JS.Undefined (Some "ignored") opened_sample);
    [reflexivity|left; reflexivity].
Defined.

(** X6.  With any other method a non-empty body is written once, between
    the request and its end; [Content-Length] becomes its length in bytes;
    and [Content-Type] is given the default only if no truthy value was set
    for it. *)
Theorem body_is_written_with_its_length
        (parse : JS.value -> Url) (agent : JS.value) (body : string) (x : XHR) :
  result (send parse agent (Some body)) x = Return tt ->
  x.(settings).(method) <> JS.Str "GET" -> x.(settings).(method) <> JS.Str "HEAD" ->
  body <> EmptyString ->
  let x' := exec (send parse agent (Some body)) x in
  (exists o, since x x'
             = [ Dispatch "readystatechange" OPENED; DoRequest o; ReqWrite body;
                 ReqEnd; Dispatch "loadstart" OPENED ])
  /\ x'.(headers) !! "Content-Length" = Some (JS.Num (Z.of_nat (String.length body)))
  /\ x'.(headers) !! "Content-Type"
     = (if JS.truthy (JS.get x.(headers) "Content-Type")
        then x.(headers) !! "Content-Type"
        else Some (JS.Str "text/plain;charset=UTF-8")).
Proof.
  intros H Hg Hh Hb x'. destruct (sent_headers _ _ _ _ H) as (ssl & host & o & Hhd & Hs).
  fold x' in Hhd, Hs. rewrite Hhd, Hs.
  assert (Hbl : bodyless x.(settings) = false).
  { unfold bodyless, JS.strict_eq. now rewrite !bool_decide_eq_false_2. }
  assert (Ht : JS.truthy (JS.Str body) = true).
  { unfold JS.truthy. now destruct (String.eqb_spec body EmptyString). }
  unfold sent_actions, sent_body, length_headers. rewrite Hbl. cbn [of_option default].
  rewrite Ht. split; [now exists o|].
  set (h := auth_headers _ _).
  assert (Hct : h !! "Content-Type" = x.(headers) !! "Content-Type").
  { subst h. unfold auth_headers. destruct (JS.truthy (user _));
      now rewrite ?lookup_insert_ne by discriminate. }
  unfold JS.get. rewrite lookup_insert_ne, Hct by discriminate.
  destruct (JS.truthy (default JS.Undefined (headers x !! "Content-Type"))); cbn [negb].
  - split; [now rewrite lookup_insert_eq|]. now rewrite lookup_insert_ne by discriminate.
  - split; [|now rewrite lookup_insert_eq].
    rewrite lookup_insert_ne by discriminate. now rewrite lookup_insert_eq.
Qed.

Lemma body_is_written_with_its_length_witness :
  let x' := exec (send sample_parse JS.Undefined (Some "hello")) post_sample in
  (exists o, since post_sample x'
             = [ Dispatch "readystatechange" OPENED; DoRequest o; ReqWrite "hello";
                 ReqEnd; Dispatch "loadstart" OPENED ])
  /\ x'.(headers) !! "Content-Length" = Some (JS.Num 5)
  /\ x'.(headers) !! "Content-Type" = Some (JS.Str "text/plain;charset=UTF-8").
Proof.
  apply (body_is_written_with_its_length sample_parse JS.Undefined "hello" post_sample);
    [reflexivity|discriminate|discriminate|discriminate].
Defined.

(** X7.  Without a body (none given, or the empty string) and with a method
    other than [GET] and [HEAD], nothing is written; a [POST] gets
    [Content-Length] 0 and any other method leaves [Content-Length] as it
    was; [Content-Type] is left as it was. *)
Theorem empty_body_sets_length_only_for_post
        (parse : JS.value -> Url) (agent : JS.value) (data : option string) (x : XHR) :
  result (send parse agent data) x = Return tt ->
  x.(settings).(method) <> JS.Str "GET" -> x.(settings).(method) <> JS.Str "HEAD" ->
  data = None \/ data = Some EmptyString ->
  let x' := exec (send parse agent data) x in
  writes (since x x') = []
  /\ x'.(headers) !! "Content-Length"
     = (if JS.strict_eq x.(settings).(method) (JS.Str "POST")
        then Some (JS.Num 0) else x.(headers) !! "Content-Length")
  /\ x'.(headers) !! "Content-Type" = x.(headers) !! "Content-Type".
Proof.
  intros H Hg Hh Hd x'. destruct (sent_headers _ _ _ _ H) as (ssl & host & o & Hhd & Hs).
  fold x' in Hhd, Hs. rewrite Hhd, Hs, writes_sent_actions.
  assert (Hbl : bodyless x.(settings) = false).
  { unfold bodyless, JS.strict_eq. now rewrite !bool_decide_eq_false_2. }
  assert (Ht : JS.truthy (of_option data) = false) by (destruct Hd as [-> | ->]; reflexivity).
  unfold sent_body, length_headers. rewrite Hbl, Ht. split; [reflexivity|].
  unfold auth_headers.
  destruct (JS.strict_eq _ (JS.Str "POST")), (JS.truthy (user _));
    rewrite ?lookup_insert_eq, ?lookup_insert_ne by discriminate; now split.
Qed.

Lemma empty_body_sets_length_only_for_post_witness :
  let x' := exec (send sample_parse JS.Undefined None) post_sample in
  writes (since post_sample x') = []
  /\ x'.(headers) !! "Content-Length" = Some (JS.Num 0)
  /\ x'.(headers) !! "Content-Type" = post_sample.(headers) !! "Content-Type".
Proof.
  apply (empty_body_sets_length_only_for_post sample_parse JS.Undefined None post_sample);
    [reflexivity|discriminate|discriminate|left; reflexivity].
Defined.

(** ** [abort] *)

Lemma abort_since x :
  since x (exec abort x)
  = match x.(request) with Some _ => [ReqAbort] | None => [] end
    ++ (if mid_exchange x then [Dispatch "readystatechange" DONE] else []).
Proof.
  unfold exec, abort, mid_exchange, since. unfold_monad.
  destruct x as [rq rp st dh h sf ef rs rt rx stt sx tr ph]; cbn.
  destruct rq; cbn;
    destruct (negb (rs =? UNSENT)%Z && (negb (rs =? OPENED)%Z || sf) && negb (rs =? DONE)%Z)
      eqn:E; cbn; rewrite ?setState_run; cbn.
  1,3: apply andb_true_iff in E as [_ E]; apply negb_true_iff in E; rewrite E; cbn;
       unfold transition_events; cbn; rewrite orb_true_r; cbn;
       rewrite <- ?app_assoc; apply drop_app_length.
  - apply drop_app_length.
  - apply drop_all.
Qed.

(** X8.  [abort] cancels the transport request exactly when one is held.
    In the middle of an exchange (headers received, loading, or opened
    with the request out) it dispatches one [readystatechange] in state
    [DONE] and neither [load] nor [loadend]; in any other state it
    dispatches nothing.  Either way it returns with [readyState] back at
    [UNSENT], the error flag up, and in the middle of an exchange the send
    flag down. *)
Theorem abort_dispatches_done_only_mid_exchange (x : XHR) :
  let x' := exec abort x in
  result abort x = Return tt
  /\ since x x'
     = match x.(request) with Some _ => [ReqAbort] | None => [] end
       ++ (if negb (x.(readyState) =? UNSENT)%Z
              && (negb (x.(readyState) =? OPENED)%Z || x.(sendFlag))
              && negb (x.(readyState) =? DONE)%Z
           then [Dispatch "readystatechange" DONE] else [])
  /\ fired "load" (since x x') = []
  /\ fired "loadend" (since x x') = []
  /\ x'.(readyState) = UNSENT
  /\ x'.(errorFlag) = true
  /\ x'.(request) = None
  /\ x'.(sendFlag)
     = (if negb (x.(readyState) =? UNSENT)%Z
           && (negb (x.(readyState) =? OPENED)%Z || x.(sendFlag))
           && negb (x.(readyState) =? DONE)%Z
        then false else x.(sendFlag)).
Proof.
  intros x'. subst x'. pose proof (abort_spec x) as H. cbn zeta in H.
  destruct H as (H1 & H2 & _ & _ & _ & H3 & _ & H4 & H5).
  rewrite abort_since. fold (mid_exchange x).
  repeat split; try assumption.
  all: destruct (request x), (mid_exchange x); reflexivity.
Qed.

(** X9.  A second [abort] right after the first changes nothing and
    dispatches nothing. *)
Theorem abort_twice_is_abort_once (x : XHR) :
  abort (exec abort x) = (Return tt, exec abort x).
Proof.
  pose proof (abort_spec x) as H. cbn zeta in H.
  destruct H as (_ & Hrs & _ & Hh & Hrt & Hef & _ & Hrq & _).
  assert (Hrx : (exec abort x).(responseXML) = EmptyString).
  { unfold exec, abort. unfold_monad.
    destruct x as [rq rp st dh h sf ef rs rt rx stt sx tr ph]; cbn.
    destruct rq; cbn;
      destruct (negb (rs =? UNSENT)%Z && (negb (rs =? OPENED)%Z || sf) && negb (rs =? DONE)%Z);
      cbn; rewrite ?setState_run; cbn;
      try match goal with |- context [if ?b then _ else _] => destruct b end; reflexivity. }
  pose proof (abort_plain_headers x) as Hph.
  destruct (exec abort x) as [rq rp st dh h sf ef rs rt rx stt sx tr ph]. cbn in *. subst.
  unfold abort. unfold_monad. reflexivity.
Qed.

(** ** [open] with a method that is not allowed *)

(** X10.  An [open] naming [TRACE], [TRACK] or [CONNECT] (in capitals), or
    an empty, undefined or null method, throws the security error; but it
    has already aborted: the state is the one [abort] leaves, with the error
    flag cleared, and the settings of the previous [open] are still there. *)
Theorem refused_open_has_aborted
        (x : XHR) (m : JS.value) (u : string) (a usr pw : JS.value) :
  In m [ JS.Str "TRACE"; JS.Str "TRACK"; JS.Str "CONNECT";
         JS.Str EmptyString; JS.Undefined; JS.Null ] ->
  let x' := exec (open m u a usr pw) x in
  result (open m u a usr pw) x = Throw security_error
  /\ x' = set_errorFlag false (exec abort x)
  /\ since x x' = since x (exec abort x)
  /\ x'.(settings) = x.(settings)
  /\ x'.(readyState) = UNSENT
  /\ x'.(errorFlag) = false.
Proof.
  intros Hm x'. subst x'.
  assert (Hno : isAllowedHttpMethod m = false).
  { cbn in Hm. repeat destruct Hm as [<- | Hm]; try reflexivity. contradiction. }
  unfold result, exec. rewrite (open_refused _ _ _ _ _ _ Hno). cbn [fst snd].
  pose proof (abort_spec x) as H. cbn zeta in H.
  destruct H as (_ & Hrs & Hst & _). unfold exec in *.
  destruct (abort x).2; cbn in *. now repeat split.
Qed.

Lemma refused_open_has_aborted_witness :
  let x' := exec (open (JS.Str "TRACE") "/" JS.Undefined JS.Undefined JS.Undefined)
                 sent_sample in
  result (open (JS.Str "TRACE") "/" JS.Undefined JS.Undefined JS.Undefined) sent_sample
  = Throw security_error
  /\ x' = set_errorFlag false (exec abort sent_sample)
  /\ since sent_sample x' = since sent_sample (exec abort sent_sample)
  /\ x'.(settings) = sent_sample.(settings)
  /\ x'.(readyState) = UNSENT
  /\ x'.(errorFlag) = false.
Proof.
  apply (refused_open_has_aborted sent_sample (JS.Str "TRACE") "/"
           JS.Undefined JS.Undefined JS.Undefined).
  left; reflexivity.
Defined.

(** ** Transport errors *)

(** X11.  [handleError] reports the failure through the fields: status
    503, the error as status text, its stack as response text (replacing
    what had been received), error flag up.  It dispatches one
    [readystatechange] in state [DONE] unless the state was [DONE] already,
    and never [load] or [loadend]; the send flag is left as it was. *)
Theorem handleError_reports_through_fields (error : JsError) (x : XHR) :
  let x' := exec (handleError error) x in
  result (handleError error) x = Return tt
  /\ x'.(status) = JS.Num 503
  /\ x'.(statusText) = Some error
  /\ x'.(responseText) = error.(stack)
  /\ x'.(errorFlag) = true
  /\ x'.(readyState) = DONE
  /\ x'.(sendFlag) = x.(sendFlag)
  /\ since x x'
     = (if (x.(readyState) =? DONE)%Z then [] else [Dispatch "readystatechange" DONE]).
Proof.
  intros x'. subst x'. unfold result, exec. rewrite handleError_run. cbn [fst snd].
  destruct x as [rq rp st dh h sf ef rs rt rx stt sx tr ph]; cbn.
  destruct (rs =? DONE)%Z eqn:E; unfold since; cbn;
    rewrite ?drop_all, ?drop_app_length;
    repeat split; try reflexivity. now apply Z.eqb_eq in E.
Qed.

(** ** What every call keeps *)

Lemma send_exec_cases parse agent data x :
  exec (send parse agent data) x = x
  \/ exists (ssl : bool) (host : JS.value),
       let u := parse x.(settings).(url) in
       let o := sent_options agent ssl host u data x in
       exec (send parse agent data) x = prepared ssl u data x
       \/ exec (send parse agent data) x
          = set_trace (x.(trace) ++ sent_actions o (sent_body x.(settings) data))
              (set_request (Some o) (set_sendFlag true (prepared ssl u data x))).
Proof.
  unfold exec.
  destruct (Z.eq_dec x.(readyState) OPENED) as [Hrs|Hrs];
    [|left; now rewrite send_not_opened].
  destruct (sendFlag x) eqn:Hsf; [left; now rewrite send_already_sent|].
  destruct (determine_server (parse x.(settings).(url))) as [[[ssl [|]] host]|e] eqn:Hsrv.
  - left. now rewrite (send_local _ _ _ _ ssl host).
  - right. exists ssl, host. cbn zeta.
    rewrite (send_run _ _ _ _ ssl host) by assumption.
    destruct (JS.truthy _); [right|left]; reflexivity.
  - left. now rewrite (send_bad_protocol _ _ _ _ e).
Qed.

Lemma fired_app event l1 l2 : fired event (l1 ++ l2) = fired event l1 ++ fired event l2.
Proof. apply omap_app. Qed.

Lemma events_app l1 l2 : events (l1 ++ l2) = events l1 ++ events l2.
Proof. apply omap_app. Qed.

Lemma requests_app l1 l2 : requests (l1 ++ l2) = requests l1 ++ requests l2.
Proof. apply omap_app. Qed.

Lemma paired_app l1 l2 : paired l1 -> paired l2 -> paired (l1 ++ l2).
Proof.
  intros [H1 F1] [H2 F2]. split.
  - now rewrite !fired_app, H1, H2.
  - rewrite fired_app. now apply Forall_app.
Qed.

Lemma paired_nil : paired [].
Proof. split; [reflexivity|constructor]. Qed.

Lemma paired_transition x st : paired (transition_events x st).
Proof.
  unfold transition_events, paired.
  destruct (_ || _ || _); destruct (st =? DONE)%Z eqn:E; cbn;
    try (split; [reflexivity|constructor]);
    apply Z.eqb_eq in E; subst; destruct (negb _); cbn;
    (split; [reflexivity|repeat constructor]).
Qed.

Lemma abort_trace x :
  (exec abort x).(trace) = x.(trace) ++ since x (exec abort x).
Proof.
  rewrite abort_since. unfold exec, abort, mid_exchange. unfold_monad.
  destruct x as [rq rp st dh h sf ef rs rt rx stt sx tr ph]; cbn.
  destruct rq; cbn;
    destruct (negb (rs =? UNSENT)%Z && (negb (rs =? OPENED)%Z || sf) && negb (rs =? DONE)%Z)
      eqn:E; cbn; rewrite ?setState_run; cbn; rewrite ?app_nil_r; try reflexivity.
  all: apply andb_true_iff in E as [_ E]; apply negb_true_iff in E; rewrite E; cbn;
       unfold transition_events; cbn; rewrite orb_true_r; cbn;
       now rewrite <- ?app_assoc.
Qed.

(** [open] as [abort] followed by the rest. *)
Lemma open_run m u a usr pw x :
  open m u a usr pw x =
  if isAllowedHttpMethod m then
    setState OPENED (set_settings (opened_settings m u a usr pw)
                       (set_errorFlag false (exec abort x)))
  else (Throw security_error, set_errorFlag false (exec abort x)).
Proof.
  destruct (isAllowedHttpMethod m) eqn:Hm; [|now apply open_refused].
  unfold open. rewrite bind_run.
  pose proof (abort_spec x) as H. unfold exec, result in *. cbn zeta in H.
  destruct (abort x) as [r xa]. cbn [fst snd] in *. destruct H as [-> _].
  unfold_monad. now rewrite Hm.
Qed.

Lemma open_trace m u a usr pw x :
  exists l, (exec (open m u a usr pw) x).(trace) = x.(trace) ++ l
            /\ fired "load" l = [] /\ fired "loadend" l = []
            /\ requests l = [].
Proof.
  unfold exec. rewrite open_run.
  pose proof (abort_trace x) as Ht. rewrite abort_since in Ht.
  pose proof (abort_spec x) as Hs. cbn zeta in Hs. destruct Hs as (_ & Hrs & _).
  assert (Hl : forall l', l' = [] \/ l' = [Dispatch "readystatechange" OPENED] ->
            let l := match request x with Some _ => [ReqAbort] | None => [] end
                     ++ (if mid_exchange x then [Dispatch "readystatechange" DONE] else [])
                     ++ l' in
            fired "load" l = [] /\ fired "loadend" l = [] /\ requests l = []).
  { intros l' [-> | ->]; destruct (request x), (mid_exchange x); now repeat split. }
  destruct (isAllowedHttpMethod m).
  - rewrite setState_run. cbn [snd].
    destruct (exec abort x) as [rq rp st dh h sf ef rs rt rx stt sx tr ph]. cbn in *. subst rs.
    cbn. unfold transition_events. cbn. subst tr.
    rewrite !orb_false_r, app_nil_r, <- !app_assoc.
    eexists. split; [reflexivity|]. apply Hl.
    destruct (JS.truthy _); [now right|now left].
  - cbn [snd]. destruct (exec abort x); cbn in *. subst.
    eexists. split; [reflexivity|]. specialize (Hl [] (or_introl eq_refl)).
    cbn zeta in Hl. now rewrite !app_nil_r in Hl.
Qed.

(** Every call only appends to the trace, and in what it appends [load]
    and [loadend] go together. *)
Lemma call_trace parse agent c x :
  exists l, (call parse agent c x).(trace) = x.(trace) ++ l /\ paired l.
Proof.
  destruct c as [m u a usr pw|b|h v|data| |ssl resp|chunk| |e]; cbn [call].
  - destruct (open_trace m u a usr pw x) as (l & Hl & H1 & H2 & _).
    exists l. split; [exact Hl|]. split; [congruence|]. rewrite H1. constructor.
  - exists []. split; [destruct x; cbn; now rewrite app_nil_r|apply paired_nil].
  - unfold exec. rewrite setRequestHeader_run.
    destruct (negb (_ =? _)%Z); [exists []; split; [now rewrite app_nil_r|apply paired_nil]|].
    destruct (negb (isAllowedHttpHeader x h)).
    + eexists. split; [destruct x; reflexivity|]. split; [reflexivity|constructor].
    + destruct (sendFlag x); exists []; (split; [|apply paired_nil]); cbn [snd];
        rewrite app_nil_r; [reflexivity|apply assigned_keeps].
  - destruct (send_exec_cases parse agent data x) as [-> | (ssl & host & [-> | ->])].
    + exists []. split; [now rewrite app_nil_r|apply paired_nil].
    + exists []. split; [destruct x; cbn; now rewrite app_nil_r|apply paired_nil].
    + eexists. split; [destruct x; reflexivity|].
      unfold sent_actions. destruct (JS.truthy _); (split; [reflexivity|constructor]).
  - exists (since x (exec abort x)). split; [apply abort_trace|].
    rewrite abort_since. destruct (request x), (mid_exchange x); (split; [reflexivity|constructor]).
  - unfold exec. destruct (is_redirect resp.(statusCode)) eqn:E.
    + rewrite responseHandler_redirect by assumption. eexists.
      split; [destruct x; reflexivity|]. split; [reflexivity|constructor].
    + rewrite responseHandler_plain by assumption. cbn [snd].
      destruct (_ =? _)%Z.
      * eexists. split; [destruct x; reflexivity|].
        destruct (has_setEncoding resp); (split; [reflexivity|constructor]).
      * exists ((if has_setEncoding resp then [SetEncoding "utf8"] else [])
                ++ transition_events x HEADERS_RECEIVED).
        split; [destruct x; cbn; now rewrite app_assoc|].
        apply paired_app; [|apply paired_transition].
        destruct (has_setEncoding resp); (split; [reflexivity|constructor]).
  - unfold exec. rewrite on_data_run. cbn [snd].
    destruct (sendFlag x); [destruct (_ =? _)%Z|].
    + exists []. split; [destruct x; cbn; now rewrite app_nil_r|apply paired_nil].
    + eexists. split; [destruct x; reflexivity|apply paired_transition].
    + exists []. split; [destruct x; cbn; now rewrite app_nil_r|apply paired_nil].
  - unfold exec. rewrite on_end_run. cbn [snd].
    destruct (sendFlag x); [destruct (_ =? _)%Z|].
    + exists []. split; [destruct x; cbn; now rewrite app_nil_r|apply paired_nil].
    + eexists. split; [destruct x; reflexivity|apply paired_transition].
    + exists []. split; [now rewrite app_nil_r|apply paired_nil].
  - unfold exec, on_error. rewrite handleError_run. cbn [snd].
    destruct (_ =? _)%Z.
    + exists []. split; [destruct x; cbn; now rewrite app_nil_r|apply paired_nil].
    + eexists. split; [destruct x; reflexivity|]. split; [reflexivity|constructor].
Qed.

Lemma run_snoc parse agent cs c x :
  run parse agent (cs ++ [c]) x = call parse agent c (run parse agent cs x).
Proof. unfold run. now rewrite fold_left_app. Qed.

Lemma run_trace parse agent cs x :
  exists l, (run parse agent cs x).(trace) = x.(trace) ++ l /\ paired l.
Proof.
  induction cs as [|c cs IH] using rev_ind.
  - exists []. split; [now rewrite app_nil_r|apply paired_nil].
  - rewrite run_snoc. destruct IH as (l1 & H1 & P1).
    destruct (call_trace parse agent c (run parse agent cs x)) as (l2 & H2 & P2).
    exists (l1 ++ l2). split; [now rewrite H2, H1, app_assoc|now apply paired_app].
Qed.

(** X12.  Over any sequence of method calls and transport callbacks, from
    any state, the trace only grows, and in what is added [loadend] is
    dispatched exactly as often as [load], in the same states, and these
    are all [DONE]. *)
Theorem load_and_loadend_go_together
        (parse : JS.value -> Url) (agent : JS.value) (cs : list Call) (x : XHR) :
  let x' := run parse agent cs x in
  x'.(trace) = x.(trace) ++ since x x'
  /\ fired "loadend" (since x x') = fired "load" (since x x')
  /\ Forall (eq DONE) (fired "load" (since x x')).
Proof.
  intros x'. destruct (run_trace parse agent cs x) as (l & Hl & P1 & P2).
  fold x' in Hl. rewrite (since_app _ _ _ Hl). now repeat split.
Qed.

Lemma open_exec_fields m u a usr pw x :
  let x' := exec (open m u a usr pw) x in
  x'.(disableHeaderCheck) = x.(disableHeaderCheck)
  /\ x'.(readyState) = (if isAllowedHttpMethod m then OPENED else UNSENT).
Proof.
  cbn zeta. pose proof (open_spec m u a usr pw x) as H. cbn zeta in H.
  destruct (isAllowedHttpMethod m) eqn:Hm; [tauto|].
  unfold exec. rewrite open_refused by assumption. cbn [snd].
  pose proof (abort_spec x) as Ha. cbn zeta in Ha.
  destruct (exec abort x); cbn in *. tauto.
Qed.

Lemma call_disableHeaderCheck parse agent c x :
  (call parse agent c x).(disableHeaderCheck)
  = match c with
    | SetDisableHeaderCheck state => state
    | _ => x.(disableHeaderCheck)
    end.
Proof.
  destruct c as [m u a usr pw|b|h v|data| |ssl resp|chunk| |e]; cbn [call].
  - apply open_exec_fields.
  - now destruct x.
  - unfold exec. rewrite setRequestHeader_run.
    repeat match goal with |- context [if ?b then _ else _] => destruct b end;
      try (now destruct x); apply assigned_keeps.
  - destruct (send_exec_cases parse agent data x) as [-> | (ssl & host & [-> | ->])];
      now destruct x.
  - pose proof (abort_spec x) as H. cbn zeta in H. tauto.
  - unfold exec. destruct (is_redirect resp.(statusCode)) eqn:E.
    + rewrite responseHandler_redirect by assumption. now destruct x.
    + rewrite responseHandler_plain by assumption. destruct (_ =? _)%Z; now destruct x.
  - unfold exec. rewrite on_data_run. cbn [snd].
    repeat match goal with |- context [if ?b then _ else _] => destruct b end;
      now destruct x.
  - unfold exec. rewrite on_end_run. cbn [snd].
    repeat match goal with |- context [if ?b then _ else _] => destruct b end;
      now destruct x.
  - unfold exec, on_error. rewrite handleError_run. cbn [snd].
    destruct (_ =? _)%Z; now destruct x.
Qed.

(** X13.  The header check setting belongs to the object, not to the
    exchange: after any sequence of calls and callbacks it is what the last
    [setDisableHeaderCheck] among them stored, or what it was if there was
    none; [open], [abort] and the rest leave it alone. *)
Theorem header_check_setting_survives
        (parse : JS.value -> Url) (agent : JS.value) (cs : list Call) (x : XHR) :
  (run parse agent cs x).(disableHeaderCheck)
  = fold_left (fun d c => match c with SetDisableHeaderCheck state => state | _ => d end)
              cs x.(disableHeaderCheck).
Proof.
  induction cs as [|c cs IH] using rev_ind; [reflexivity|].
  rewrite run_snoc, fold_left_app, call_disableHeaderCheck, IH. cbn.
  now destruct c.
Qed.

Lemma call_readyState parse agent c x :
  In (call parse agent c x).(readyState)
     [x.(readyState); UNSENT; OPENED; HEADERS_RECEIVED; LOADING; DONE].
Proof.
  destruct c as [m u a usr pw|b|h v|data| |ssl resp|chunk| |e]; cbn [call].
  - destruct (open_exec_fields m u a usr pw x) as [_ ->].
    destruct (isAllowedHttpMethod m); cbn; tauto.
  - left. now destruct x.
  - left. unfold exec. rewrite setRequestHeader_run.
    repeat match goal with |- context [if ?b then _ else _] => destruct b end;
      try (now destruct x); symmetry; apply assigned_keeps.
  - left. destruct (send_exec_cases parse agent data x) as [-> | (ssl & host & [-> | ->])];
      now destruct x.
  - pose proof (abort_spec x) as H. cbn zeta in H. destruct H as (_ & -> & _). cbn; tauto.
  - unfold exec. destruct (is_redirect resp.(statusCode)) eqn:E.
    + rewrite responseHandler_redirect by assumption. left. now destruct x.
    + rewrite responseHandler_plain by assumption. destruct (_ =? _)%Z;
        destruct x; cbn; tauto.
  - unfold exec. rewrite on_data_run. cbn [snd].
    repeat match goal with |- context [if ?b then _ else _] => destruct b end;
      destruct x; cbn; tauto.
  - unfold exec. rewrite on_end_run. cbn [snd].
    repeat match goal with |- context [if ?b then _ else _] => destruct b end;
      destruct x; cbn; tauto.
  - unfold exec, on_error. rewrite handleError_run. cbn [snd].
    destruct (_ =? _)%Z eqn:E; destruct x; cbn in *; tauto.
Qed.

(** X14.  Whatever the caller and the transport do, in whatever order,
    [readyState] is one of the five constants. *)
Theorem readyState_is_a_constant
        (parse : JS.value -> Url) (agent : JS.value) (cs : list Call) :
  In (run parse agent cs initial).(readyState)
     [UNSENT; OPENED; HEADERS_RECEIVED; LOADING; DONE].
Proof.
  induction cs as [|c cs IH] using rev_ind; [now left|].
  rewrite run_snoc.
  destruct (call_readyState parse agent c (run parse agent cs initial)) as [<- | H];
    [exact IH|exact H].
Qed.

(** ** Forbidden names in the header map *)

Lemma clean_default : clean defaultHeaders.
Proof.
  intros k v. unfold defaultHeaders.
  rewrite !lookup_insert_Some, lookup_empty.
  intros [[<- _]|[_ [[<- _]|[_ H]]]]; [discriminate..|discriminate H].
Qed.

Lemma clean_insert k v h :
  clean h -> forbidden k = false \/ k = "Host" \/ k = "Content-Length" ->
  clean (<[k := v]> h).
Proof.
  intros Hc Hk k' v'. rewrite lookup_insert_Some. intros [[<- _]|[_ H]] Hf.
  - destruct Hk as [Hk|Hk]; [congruence|exact Hk].
  - now apply (Hc k' v').
Qed.

Lemma clean_outgoing st ssl u data h : clean h -> clean (outgoing_headers st ssl u data h).
Proof.
  intros Hc. unfold outgoing_headers, length_headers, auth_headers.
  repeat match goal with |- context [if ?b then _ else _] => destruct b end;
    repeat (apply clean_insert; [|first [left; reflexivity|right; tauto]]); exact Hc.
Qed.

Lemma call_clean parse agent c x :
  x.(disableHeaderCheck) = false -> clean x.(headers) ->
  clean (call parse agent c x).(headers).
Proof.
  intros Hd Hc. destruct c as [m u a usr pw|b|h v|data| |ssl resp|chunk| |e]; cbn [call].
  - rewrite open_headers. apply clean_default.
  - now destruct x.
  - unfold exec. rewrite setRequestHeader_run.
    destruct (negb (_ =? _)%Z); [exact Hc|].
    destruct (negb (isAllowedHttpHeader x h)) eqn:Ha; [now destruct x|].
    destruct (sendFlag x); [exact Hc|]. cbn [snd].
    assert (Hf : forbidden h = false).
    { apply negb_false_iff in Ha. unfold isAllowedHttpHeader, JS.not_in in Ha.
      rewrite Hd in Ha. cbn in Ha. apply andb_true_iff in Ha as [_ Ha].
      now apply negb_true_iff in Ha. }
    destruct (assigned_headers h v x) as [-> | ->]; [exact Hc|].
    apply clean_insert; [exact Hc|now left].
  - destruct (send_exec_cases parse agent data x) as [-> | (ssl & host & [-> | ->])];
      [exact Hc| |]; destruct x; cbn in *; now apply clean_outgoing.
  - pose proof (abort_spec x) as H. cbn zeta in H. destruct H as (_ & _ & _ & -> & _).
    apply clean_default.
  - unfold exec. destruct (is_redirect resp.(statusCode)) eqn:E.
    + rewrite responseHandler_redirect by assumption. now destruct x.
    + rewrite responseHandler_plain by assumption. destruct (_ =? _)%Z; now destruct x.
  - unfold exec. rewrite on_data_run. cbn [snd].
    repeat match goal with |- context [if ?b then _ else _] => destruct b end;
      now destruct x.
  - unfold exec. rewrite on_end_run. cbn [snd].
    repeat match goal with |- context [if ?b then _ else _] => destruct b end;
      now destruct x.
  - unfold exec, on_error. rewrite handleError_run. cbn [snd].
    destruct (_ =? _)%Z; now destruct x.
Qed.

Lemma run_clean parse agent cs :
  forallb keeps_check cs = true ->
  (run parse agent cs initial).(disableHeaderCheck) = false
  /\ clean (run parse agent cs initial).(headers).
Proof.
  induction cs as [|c cs IH] using rev_ind; intros Hk.
  - split; [reflexivity|apply clean_default].
  - rewrite forallb_app in Hk. apply andb_true_iff in Hk as [Hcs Hc].
    destruct (IH Hcs) as [Hd Hh]. rewrite run_snoc. split.
    + rewrite call_disableHeaderCheck. cbn in Hc.
      destruct c as [| [|] | | | | | | |]; try exact Hd; [discriminate|reflexivity].
    + now apply call_clean.
Qed.

(** X15.  As long as the header check is never switched off, the only
    forbidden names that can be present in the header map, whatever the
    caller and the transport do, are [Host] and [Content-Length], which
    [send] writes itself. *)
Theorem only_send_writes_forbidden_names
        (parse : JS.value -> Url) (agent : JS.value) (cs : list Call)
        (k : string) (v : JS.value) :
  forallb keeps_check cs = true ->
  (run parse agent cs initial).(headers) !! k = Some v ->
  forbidden k = true ->
  k = "Host" \/ k = "Content-Length".
Proof.
  intros Hk Hv Hf. destruct (run_clean parse agent cs Hk) as [_ Hc].
  exact (Hc k v Hv Hf).
Qed.

Lemma only_send_writes_forbidden_names_witness :
  "Content-Length" = "Host" \/ "Content-Length" = "Content-Length".
Proof.
  apply (only_send_writes_forbidden_names sample_parse JS.Undefined
           [ Open (JS.Str "POST") "http://example.com/a" JS.Undefined JS.Undefined JS.Undefined;
             SetRequestHeader "Cookie" (JS.Str "x");
             Send (Some "hello") ]
           "Content-Length" (JS.Num 5)); reflexivity.
Defined.

(** ** Chains of redirects *)

Lemma since_chain x y z l1 l2 :
  y.(trace) = x.(trace) ++ l1 -> z.(trace) = y.(trace) ++ l2 ->
  z.(trace) = x.(trace) ++ (l1 ++ l2).
Proof. intros H1 H2. now rewrite H2, H1, app_assoc. Qed.

Lemma redirects_run parse agent ssl resps x :
  forallb (fun r => is_redirect r.(statusCode)) resps = true ->
  let x' := run parse agent (map (OnResponse ssl) resps) x in
  exists os,
    length os = length resps
    /\ x'.(trace) = x.(trace) ++ flat_map (fun o => [DoRequest o; ReqEnd]) os
    /\ x'.(readyState) = x.(readyState)
    /\ x'.(sendFlag) = x.(sendFlag)
    /\ x'.(headers) = x.(headers)
    /\ Forall (fun o => o.(o_headers) = x.(headers)) os.
Proof.
  cbn zeta. induction resps as [|r resps IH] using rev_ind; intros Hr.
  - exists []. cbn. now rewrite app_nil_r.
  - rewrite forallb_app in Hr. apply andb_true_iff in Hr as [Hrs Hr1].
    cbn in Hr1. rewrite andb_true_r in Hr1.
    destruct (IH Hrs) as (os & Hlen & Htr & Hst & Hsf & Hh & Ho).
    rewrite map_app. cbn [map]. rewrite run_snoc. cbn [call]. unfold exec.
    rewrite (responseHandler_redirect _ _ _ _ Hr1). cbn [snd].
    set (y := run parse agent (map (OnResponse ssl) resps) x) in *.
    exists (os ++ [redirect_options parse ssl r y]). repeat split.
    + rewrite !length_app, Hlen. reflexivity.
    + rewrite flat_map_app. cbn. rewrite app_assoc, <- Htr. now destruct y.
    + rewrite <- Hst. now destruct y.
    + rewrite <- Hsf. now destruct y.
    + rewrite <- Hh. now destruct y.
    + apply Forall_app. split; [exact Ho|]. constructor; [|constructor].
      rewrite <- Hh. reflexivity.
Qed.

Lemma requests_flat_map os :
  requests (flat_map (fun o => [DoRequest o; ReqEnd]) os) = os.
Proof. induction os as [|o os IH]; [reflexivity|]. cbn. f_equal. exact IH. Qed.

Lemma events_flat_map os :
  events (flat_map (fun o => [DoRequest o; ReqEnd]) os) = [].
Proof. induction os as [|o os IH]; [reflexivity|]. exact IH. Qed.

(** X16.  Redirects are followed without a bound: however many responses
    with status 302, 303 or 307 arrive in a row, each one makes the handler
    issue one more request, always with the emulator's current headers, and
    none of them dispatches an event or moves [readyState]. *)
Theorem every_redirect_is_followed
        (parse : JS.value -> Url) (agent : JS.value) (ssl : bool)
        (resps : list Response) (x : XHR) :
  forallb (fun r => is_redirect r.(statusCode)) resps = true ->
  let x' := run parse agent (map (OnResponse ssl) resps) x in
  length (requests (since x x')) = length resps
  /\ Forall (fun o => o.(o_headers) = x.(headers)) (requests (since x x'))
  /\ events (since x x') = []
  /\ x'.(readyState) = x.(readyState)
  /\ x'.(sendFlag) = x.(sendFlag).
Proof.
  intros Hr x'. destruct (redirects_run parse agent ssl resps x Hr)
    as (os & Hlen & Htr & Hst & Hsf & _ & Ho).
  fold x' in Htr, Hst, Hsf. rewrite (since_app _ _ _ Htr).
  rewrite requests_flat_map, events_flat_map. now repeat split.
Qed.

Lemma every_redirect_is_followed_witness :
  let resps := [redirect_response 302; redirect_response 307; redirect_response 303] in
  let x' := run sample_parse JS.Undefined (map (OnResponse false) resps) sent_sample in
  length (requests (since sent_sample x')) = 3%nat
  /\ Forall (fun o => o.(o_headers) = sent_sample.(headers)) (requests (since sent_sample x'))
  /\ events (since sent_sample x') = []
  /\ x'.(readyState) = sent_sample.(readyState)
  /\ x'.(sendFlag) = sent_sample.(sendFlag).
Proof.
  apply (every_redirect_is_followed sample_parse JS.Undefined false
           [redirect_response 302; redirect_response 307; redirect_response 303]
           sent_sample).
  reflexivity.
Defined.

(** ** Callbacks that arrive after [abort] *)

Lemma body_callbacks_silent parse agent cs x :
  forallb is_body_callback cs = true -> x.(sendFlag) = false ->
  let x' := run parse agent cs x in
  x'.(trace) = x.(trace) /\ x'.(readyState) = x.(readyState) /\ x'.(sendFlag) = false
  /\ x'.(errorFlag) = x.(errorFlag).
Proof.
  cbn zeta. induction cs as [|c cs IH] using rev_ind; intros Hb Hsf; [now repeat split|].
  rewrite forallb_app in Hb. apply andb_true_iff in Hb as [Hcs Hc].
  destruct (IH Hcs Hsf) as (Htr & Hrs & Hsf' & Hef). rewrite run_snoc.
  set (y := run parse agent cs x) in *.
  destruct c; try discriminate Hc; cbn [call]; unfold exec.
  - rewrite on_data_run. cbn [snd]. rewrite Hsf'. destruct y; cbn in *. now repeat split.
  - rewrite on_end_run. cbn [snd]. rewrite Hsf'. now repeat split.
Qed.

(** X17.  After [abort] on an object whose send flag was consistent, body
    callbacks that still arrive from the cancelled request (chunks, the
    end of the stream) are silent: no event is dispatched, [readyState]
    stays [UNSENT] and the flags stay as [abort] left them. *)
Theorem late_body_callbacks_are_silent
        (parse : JS.value -> Url) (agent : JS.value) (cs : list Call) (x : XHR) :
  send_flag_consistent x = true ->
  forallb is_body_callback cs = true ->
  let xa := exec abort x in
  let x' := run parse agent cs xa in
  since xa x' = []
  /\ x'.(readyState) = UNSENT
  /\ x'.(sendFlag) = false
  /\ x'.(errorFlag) = true.
Proof.
  intros Hc Hb xa x'.
  pose proof (abort_spec x) as H. cbn zeta in H. fold xa in H.
  destruct H as (_ & Hrs & _ & _ & _ & Hef & _ & _ & Hsf).
  assert (Hsf' : xa.(sendFlag) = false).
  { rewrite Hsf. unfold send_flag_consistent, mid_exchange in *.
    destruct (sendFlag x);
      [|now match goal with |- (if ?b then _ else _) = _ => destruct b end].
    cbn in Hc. apply andb_true_iff in Hc as [H1 H2]. rewrite H1, H2.
    now rewrite orb_true_r. }
  destruct (body_callbacks_silent parse agent cs xa Hb Hsf') as (Htr & Hrs' & Hsf'' & Hef').
  fold x' in Htr, Hrs', Hsf'', Hef'. unfold since. rewrite Htr, drop_all.
  repeat split; congruence.
Qed.

Lemma late_body_callbacks_are_silent_witness :
  let xa := exec abort sent_sample in
  let x' := run sample_parse JS.Undefined [OnData "late"; OnEnd] xa in
  since xa x' = []
  /\ x'.(readyState) = UNSENT
  /\ x'.(sendFlag) = false
  /\ x'.(errorFlag) = true.
Proof.
  apply (late_body_callbacks_are_silent sample_parse JS.Undefined
           [OnData "late"; OnEnd] sent_sample); reflexivity.
Defined.

(** ** The response getters *)

Lemma lower_ascii_idem c : JS.lower_ascii (JS.lower_ascii c) = JS.lower_ascii c.
Proof. destruct c as [[] [] [] [] [] [] [] []]; vm_compute; reflexivity. Qed.

Lemma lower_ascii_high c d :
  JS.lower_ascii c = d -> (128 <=? nat_of_ascii d)%nat = true -> c = d.
Proof.
  intros <-. destruct c as [[] [] [] [] [] [] [] []]; vm_compute; congruence.
Qed.

(** Away from a Kelvin sign a string is lower-cased character by character. *)
Lemma toLowerCase_cons c r :
  (forall t, String c r <> String "226" (String "132" (String "170" t))) ->
  JS.toLowerCase (String c r) = String (JS.lower_ascii c) (JS.toLowerCase r).
Proof.
  intros H. destruct r as [|a [|b r']]; try reflexivity.
  cbn [JS.toLowerCase]. destruct (JS.is_kelvin c a b) eqn:K; [|reflexivity].
  exfalso. unfold JS.is_kelvin in K.
  apply andb_true_iff in K as [K Kb]. apply andb_true_iff in K as [Kc Ka].
  apply Ascii.eqb_eq in Kc, Ka, Kb. subst. now apply (H r').
Qed.

Lemma toLowerCase_head c r :
  (exists t, JS.toLowerCase (String c r) = String "k" t)
  \/ JS.toLowerCase (String c r) = String (JS.lower_ascii c) (JS.toLowerCase r).
Proof.
  destruct r as [|a [|b r']]; try (right; reflexivity).
  cbn [JS.toLowerCase]. destruct (JS.is_kelvin c a b); [left; eauto|right; reflexivity].
Qed.

(** No lower-cased string begins with a Kelvin sign. *)
Lemma toLowerCase_no_kelvin s t :
  JS.toLowerCase s <> String "226" (String "132" (String "170" t)).
Proof.
  intros H. destruct s as [|c r]; [discriminate|].
  destruct (toLowerCase_head c r) as [[t' E]|E]; [rewrite E in H; discriminate|].
  rewrite E in H. injection H as Hc Hr.
  destruct r as [|c1 r1]; [discriminate|].
  destruct (toLowerCase_head c1 r1) as [[t' E1]|E1]; [rewrite E1 in Hr; discriminate|].
  rewrite E1 in Hr. injection Hr as Hc1 Hr1.
  destruct r1 as [|c2 r2]; [discriminate|].
  destruct (toLowerCase_head c2 r2) as [[t' E2]|E2]; [rewrite E2 in Hr1; discriminate|].
  rewrite E2 in Hr1. injection Hr1 as Hc2 _.
  apply lower_ascii_high in Hc, Hc1, Hc2; try reflexivity. subst.
  cbn in E. discriminate.
Qed.

Lemma toLowerCase_idem s : JS.toLowerCase (JS.toLowerCase s) = JS.toLowerCase s.
Proof.
  remember (String.length s) as n eqn:Hn.
  assert (Hle : (String.length s <= n)%nat) by lia. clear Hn.
  revert s Hle. induction n as [|n IH]; intros s Hle.
  - destruct s; [reflexivity|cbn in Hle; lia].
  - destruct s as [|c r]; [reflexivity|]. cbn [String.length] in Hle.
    assert (Hgo : JS.toLowerCase (String c r)
                  = String (JS.lower_ascii c) (JS.toLowerCase r) ->
                  JS.toLowerCase (JS.toLowerCase (String c r)) = JS.toLowerCase (String c r)).
    { intros E. rewrite E. rewrite toLowerCase_cons.
      - rewrite lower_ascii_idem, IH by lia. reflexivity.
      - intros t. rewrite <- E. apply toLowerCase_no_kelvin. }
    destruct r as [|a [|b r']]; try (apply Hgo; reflexivity).
    cbn [JS.toLowerCase] in *. destruct (JS.is_kelvin c a b); [|apply Hgo; reflexivity].
    rewrite toLowerCase_cons by (intros t; discriminate).
    cbn [String.length] in Hle. rewrite IH by lia. reflexivity.
Qed.

Lemma getResponseHeader_run header x :
  getResponseHeader header x =
  (match header with
   | JS.Str h =>
       if (OPENED <? x.(readyState))%Z then
         match x.(response) with
         | Some r =>
             Return (if JS.truthy (JS.get r.(r_headers) (JS.toLowerCase h))
                        && negb x.(errorFlag)
                     then JS.get r.(r_headers) (JS.toLowerCase h) else JS.Null)
         | None => Throw response_undefined_error
         end
       else Return JS.Null
   | _ => Return JS.Null
   end, x).
Proof.
  unfold getResponseHeader. unfold_monad.
  destruct header as [| |b|n|h]; try reflexivity.
  destruct (OPENED <? _)%Z; [|reflexivity].
  destruct (response x); [|reflexivity]. now destruct (_ && _).
Qed.

(** X18.  [getResponseHeader] looks a name up without regard to the letter
    case it is given in: it lower-cases its argument, so a name and its
    lower-case form give the same outcome in every state; and it never
    changes the state. *)
Theorem getResponseHeader_ignores_case (h : string) (x : XHR) :
  getResponseHeader (JS.Str h) x = getResponseHeader (JS.Str (JS.toLowerCase h)) x
  /\ exec (getResponseHeader (JS.Str h)) x = x.
Proof.
  unfold exec. rewrite !getResponseHeader_run, toLowerCase_idem. now split.
Qed.

(** X19.  Once the handler has taken a response that is not a redirect,
    on an exchange with the error flag down, [getResponseHeader] returns
    the response's header stored under the lower-cased name, or [null] if
    there is none or its value is falsy. *)
Theorem response_header_is_read_back
        (parse : JS.value -> Url) (ssl : bool) (resp : Response) (h : string) (x : XHR) :
  is_redirect resp.(statusCode) = false ->
  x.(errorFlag) = false ->
  let x' := exec (responseHandler parse ssl resp) x in
  result (getResponseHeader (JS.Str h)) x'
  = Return (if JS.truthy (JS.get resp.(r_headers) (JS.toLowerCase h))
            then JS.get resp.(r_headers) (JS.toLowerCase h) else JS.Null).
Proof.
  intros Hr He x'. subst x'. unfold result, exec.
  rewrite getResponseHeader_run, (responseHandler_plain _ _ _ _ Hr). cbn [fst snd].
  destruct x as [rq rp st dh hd sf ef rs rt rx stt sx tr ph]; cbn in *. subst ef.
  destruct (rs =? HEADERS_RECEIVED)%Z eqn:E; cbn.
  - apply Z.eqb_eq in E. subst rs. cbn. now rewrite andb_true_r.
  - now rewrite andb_true_r.
Qed.

Lemma response_header_is_read_back_witness :
  result (getResponseHeader (JS.Str "Content-Type")) received_sample
  = Return (JS.Str "text/plain").
Proof.
  exact (response_header_is_read_back sample_parse false headers_response
           "Content-Type" sent_sample eq_refl eq_refl).
Defined.

Lemma getAllResponseHeaders_run keys x :
  getAllResponseHeaders keys x =
  (if (x.(readyState) <? HEADERS_RECEIVED)%Z || x.(errorFlag) then Return EmptyString
   else match x.(response) with
        | Some r => Return (substr0 (collect_headers r keys)
                              (Z.of_nat (String.length (collect_headers r keys)) - 2))
        | None => Throw response_undefined_error
        end, x).
Proof.
  unfold getAllResponseHeaders. unfold_monad.
  destruct (_ || _); [reflexivity|]. now destruct (response x).
Qed.

(** X20.  After [abort], and after [open], the response getters give
    nothing and do not fail, whatever response the object still holds:
    [getAllResponseHeaders] returns the empty string and
    [getResponseHeader] returns [null] for any argument. *)
Theorem getters_empty_after_abort_and_open
        (x : XHR) (m : JS.value) (u : string) (a usr pw : JS.value)
        (keys : list string) (header : JS.value) :
  result (getAllResponseHeaders keys) (exec abort x) = Return EmptyString
  /\ result (getResponseHeader header) (exec abort x) = Return JS.Null
  /\ result (getAllResponseHeaders keys) (exec (open m u a usr pw) x) = Return EmptyString
  /\ result (getResponseHeader header) (exec (open m u a usr pw) x) = Return JS.Null.
Proof.
  unfold result. rewrite !getAllResponseHeaders_run, !getResponseHeader_run. cbn [fst].
  pose proof (abort_spec x) as Ha. cbn zeta in Ha. destruct Ha as (_ & Ha & _).
  destruct (open_exec_fields m u a usr pw x) as [_ Ho].
  rewrite Ha, Ho.
  repeat split; try reflexivity;
    destruct (isAllowedHttpMethod m); try reflexivity; now destruct header.
Qed.

(** X21.  When the transport fails before any response has reached the
    object, the two getters part ways: [getAllResponseHeaders] tests the
    error flag first and returns the empty string, while
    [getResponseHeader] reads [response.headers] before it tests the flag
    and throws on the undefined [response]. *)
Theorem getResponseHeader_throws_without_response
        (error : JsError) (h : string) (keys : list string) (x : XHR) :
  x.(response) = None ->
  let x' := exec (handleError error) x in
  result (getAllResponseHeaders keys) x' = Return EmptyString
  /\ result (getResponseHeader (JS.Str h)) x' = Throw response_undefined_error.
Proof.
  intros Hr x'. subst x'. unfold result, exec.
  rewrite getAllResponseHeaders_run, getResponseHeader_run, handleError_run. cbn [fst snd].
  destruct x as [rq rp st dh hd sf ef rs rt rx stt sx tr ph]; cbn in *. subst rp.
  destruct (rs =? DONE)%Z eqn:E; cbn;
    [apply Z.eqb_eq in E; subst rs; cbn|]; rewrite ?orb_true_r; now split.
Qed.

Lemma getResponseHeader_throws_without_response_witness :
  let x' := exec (handleError sample_error) sent_sample in
  result (getAllResponseHeaders []) x' = Return EmptyString
  /\ result (getResponseHeader (JS.Str "content-type")) x' = Throw response_undefined_error.
Proof.
  apply (getResponseHeader_throws_without_response sample_error "content-type" []
           sent_sample); reflexivity.
Defined.

(** *** The text of [getAllResponseHeaders] *)

Lemma append_assoc (a b c : string) : (a +:+ b) +:+ c = a +:+ (b +:+ c).
Proof.
  induction a as [|ch a IH]; [reflexivity|].
  unfold String.app in *. cbn. now rewrite IH.
Qed.

Lemma length_append (a b : string) :
  String.length (a +:+ b) = (String.length a + String.length b)%nat.
Proof.
  induction a as [|ch a IH]; [reflexivity|].
  unfold String.app in *. cbn. now rewrite IH.
Qed.

Lemma substring_append (a b : string) (n : nat) :
  String.substring 0 (String.length a + n) (a +:+ b) = a +:+ String.substring 0 n b.
Proof.
  induction a as [|ch a IH]; [reflexivity|].
  unfold String.app in *. cbn. now rewrite IH.
Qed.

Lemma chop_substring s :
  chop s = String.substring 0 (String.length s - 2) s.
Proof.
  unfold chop, substr0.
  replace (Z.to_nat (Z.of_nat (String.length s) - 2)) with (String.length s - 2)%nat by lia.
  destruct (_ <=? 0)%Z eqn:E; [|reflexivity].
  apply Z.leb_le in E. replace (String.length s - 2)%nat with 0%nat by lia.
  now destruct s.
Qed.

Lemma chop_append a b :
  (2 <= String.length b)%nat -> chop (a +:+ b) = a +:+ chop b.
Proof.
  intros Hb. rewrite !chop_substring, length_append.
  replace (String.length a + String.length b - 2)%nat
    with (String.length a + (String.length b - 2))%nat by lia.
  apply substring_append.
Qed.

Lemma chop_crlf a : chop (a +:+ crlf) = a.
Proof.
  rewrite chop_append by (cbn; lia).
  replace (chop crlf) with EmptyString by reflexivity. apply append_empty_r.
Qed.

Lemma collect_headers_from r keys acc :
  fold_left (fun result i =>
               if negb (String.eqb i "set-cookie") && negb (String.eqb i "set-cookie2")
               then result +:+ header_line r i else result) keys acc
  = acc +:+ collect_headers r keys.
Proof.
  unfold collect_headers. revert acc. induction keys as [|k keys IH]; intros acc.
  - cbn. now rewrite append_empty_r.
  - cbn [fold_left].
    match goal with
    | |- fold_left _ keys ?a = _ +:+ fold_left _ keys ?b => rewrite (IH a), (IH b)
    end.
    destruct (_ && _); [|reflexivity]. cbn. now rewrite append_assoc.
Qed.

Lemma collect_headers_cons r k keys :
  collect_headers r (k :: keys)
  = (if visible k then header_line r k else EmptyString) +:+ collect_headers r keys.
Proof.
  unfold collect_headers at 1. cbn [fold_left]. rewrite collect_headers_from.
  unfold visible. now destruct (_ && _).
Qed.

Lemma collect_headers_length r keys :
  List.filter visible keys <> [] -> (2 <= String.length (collect_headers r keys))%nat.
Proof.
  induction keys as [|k keys IH]; [cbn; congruence|]. intros H.
  rewrite collect_headers_cons, length_append. cbn [List.filter] in H.
  destruct (visible k).
  - unfold header_line. rewrite length_append. cbn. lia.
  - specialize (IH H). cbn. lia.
Qed.

Lemma chop_collect_headers r keys :
  chop (collect_headers r keys)
  = String.concat crlf (map (header_text r) (List.filter visible keys)).
Proof.
  induction keys as [|k keys IH]; [reflexivity|].
  rewrite collect_headers_cons. cbn [List.filter].
  destruct (visible k); [|exact IH]. cbn [map].
  destruct (List.filter visible keys) as [|k' rest] eqn:E.
  - assert (Hc : collect_headers r keys = EmptyString).
    { clear IH. induction keys as [|j keys IHk]; [reflexivity|].
      rewrite collect_headers_cons. cbn [List.filter] in E.
      destruct (visible j); [discriminate|]. now apply IHk. }
    rewrite Hc, append_empty_r. unfold header_line. apply chop_crlf.
  - rewrite chop_append by (apply collect_headers_length; congruence).
    rewrite IH. unfold header_line. cbn [map String.concat].
    now rewrite append_assoc.
Qed.

(** X22.  With headers received and no error, [getAllResponseHeaders]
    returns the headers in the order their keys are enumerated, each as
    [name: value], joined by CR LF with none after the last, leaving out
    [set-cookie] and [set-cookie2]; without any header to show it returns
    the empty string. *)
Theorem all_response_headers_are_joined
        (keys : list string) (r : Response) (x : XHR) :
  x.(response) = Some r ->
  x.(errorFlag) = false ->
  (HEADERS_RECEIVED <= x.(readyState))%Z ->
  getAllResponseHeaders keys x
  = (Return (String.concat crlf
               (map (fun i => (i +:+ ": ") +:+ JS.to_string (JS.get r.(r_headers) i))
                    (List.filter
                       (fun i => negb (String.eqb i "set-cookie")
                                 && negb (String.eqb i "set-cookie2")) keys))), x).
Proof.
  intros Hr He Hs. rewrite getAllResponseHeaders_run, Hr, He.
  apply Z.ltb_ge in Hs. rewrite Hs. cbn [orb].
  fold (chop (collect_headers r keys)). now rewrite chop_collect_headers.
Qed.

Lemma all_response_headers_are_joined_witness :
  getAllResponseHeaders ["content-type"; "set-cookie"; "etag"] received_sample
  = (Return (String.concat crlf
               (map (fun i => (i +:+ ": ")
                              +:+ JS.to_string (JS.get headers_response.(r_headers) i))
                    (List.filter
                       (fun i => negb (String.eqb i "set-cookie")
                                 && negb (String.eqb i "set-cookie2"))
                       ["content-type"; "set-cookie"; "etag"]))), received_sample).
Proof.
  apply (all_response_headers_are_joined ["content-type"; "set-cookie"; "etag"]
           headers_response received_sample);
    [vm_compute; reflexivity|vm_compute; reflexivity|vm_compute; discriminate].
Defined.

(** The same, spelled out. *)
Example all_response_headers_sample :
  result (getAllResponseHeaders ["content-type"; "set-cookie"; "etag"]) received_sample
  = Return ("content-type: text/plain" +:+ crlf +:+ "etag: abc").
Proof. vm_compute. reflexivity. Qed.

(** ** Event listeners *)

(** The two calls fail on exactly the names that are inherited and have no
    list of their own, and leave the registry alone when they do. *)
Lemma addEventListener_run e c r :
  Listeners.addEventListener e c r =
  match r.(Listeners.registered) !! e with
  | Some cs =>
      (Return tt, {| Listeners.slot := r.(Listeners.slot);
                     Listeners.registered := <[e := cs ++ [c]]> r.(Listeners.registered) |})
  | None =>
      if JS.inherited e then (Throw (Listeners.not_a_function "push"), r)
      else (Return tt, {| Listeners.slot := r.(Listeners.slot);
                          Listeners.registered := <[e := [c]]> r.(Listeners.registered) |})
  end.
Proof.
  unfold Listeners.addEventListener, Listeners.has.
  destruct (Listeners.registered r !! e) as [cs|] eqn:E; [now rewrite E|].
  destruct (JS.inherited e); [now rewrite E|].
  rewrite lookup_insert_eq. cbn. now rewrite insert_insert_eq.
Qed.

Lemma removeEventListener_run e c r :
  Listeners.removeEventListener e c r =
  match r.(Listeners.registered) !! e with
  | Some cs =>
      (Return tt, {| Listeners.slot := r.(Listeners.slot);
                     Listeners.registered :=
                       <[e := filter (fun ev => ev <> c) cs]> r.(Listeners.registered) |})
  | None =>
      if JS.inherited e then (Throw (Listeners.not_a_function "filter"), r)
      else (Return tt, r)
  end.
Proof.
  unfold Listeners.removeEventListener, Listeners.has.
  now destruct (Listeners.registered r !! e).
Qed.

Lemma lookup_after_insert (m : gmap string (list Listeners.Callback)) e l e' :
  <[e := l]> m !! e' = if String.eqb e' e then Some l else m !! e'.
Proof.
  destruct (String.eqb_spec e' e) as [->|Hne]; [apply lookup_insert_eq|].
  now rewrite lookup_insert_ne by congruence.
Qed.

(** X23.  [addEventListener] fails with a [TypeError], registering
    nothing, when the event is a name that objects inherit and has no
    list of its own.  Otherwise it returns and puts the callback at the end
    of the calling order of its event, after the [on<event>] function and
    after every callback registered before, also when the same callback is
    registered already; the calling order of every other event stays as it
    was. *)
Theorem added_listener_is_called_last
        (event other : string) (callback : Listeners.Callback) (r : Listeners.Registry) :
  let o := Listeners.addEventListener event callback r in
  if JS.inherited event && bool_decide (r.(Listeners.registered) !! event = None) then
    o = (Throw (Listeners.not_a_function "push"), r)
  else
    fst o = Return tt
    /\ Listeners.dispatchEvent other (snd o)
       = if String.eqb other event
         then Listeners.dispatchEvent event r ++ [callback]
         else Listeners.dispatchEvent other r.
Proof.
  cbv zeta. rewrite addEventListener_run. unfold Listeners.dispatchEvent.
  destruct (Listeners.registered r !! event) as [cs|] eqn:E.
  - rewrite andb_false_r. cbn. split; [reflexivity|]. rewrite lookup_after_insert.
    destruct (String.eqb_spec other event) as [->|Hne]; [|reflexivity].
    now rewrite <- app_assoc.
  - rewrite bool_decide_eq_true_2 by reflexivity. rewrite andb_true_r.
    destruct (JS.inherited event); [reflexivity|].
    cbn. split; [reflexivity|]. rewrite lookup_after_insert.
    destruct (String.eqb_spec other event) as [->|Hne]; [|reflexivity].
    now rewrite <- app_assoc.
Qed.

(** X24.  [removeEventListener] fails with a [TypeError], changing
    nothing, when the event is a name that objects inherit and has no
    list of its own.  Otherwise it returns, having taken every registration
    of the callback out of its event's list and kept the others in order;
    it does not touch the [on<event>] function, even if that is the same
    callback, nor any other event. *)
Theorem removed_listener_is_not_called
        (event other : string) (callback : Listeners.Callback) (r : Listeners.Registry) :
  let o := Listeners.removeEventListener event callback r in
  if JS.inherited event && bool_decide (r.(Listeners.registered) !! event = None) then
    o = (Throw (Listeners.not_a_function "filter"), r)
  else
    fst o = Return tt
    /\ Listeners.dispatchEvent other (snd o)
       = if String.eqb other event
         then match r.(Listeners.slot) !! event with Some f => [f] | None => [] end
              ++ filter (fun ev => ev <> callback)
                        (default [] (r.(Listeners.registered) !! event))
         else Listeners.dispatchEvent other r.
Proof.
  cbv zeta. rewrite removeEventListener_run. unfold Listeners.dispatchEvent.
  destruct (Listeners.registered r !! event) as [cs|] eqn:E.
  - rewrite andb_false_r. cbn. split; [reflexivity|]. rewrite lookup_after_insert.
    now destruct (String.eqb_spec other event) as [->|Hne].
  - rewrite bool_decide_eq_true_2 by reflexivity. rewrite andb_true_r.
    destruct (JS.inherited event); [reflexivity|].
    cbn. split; [reflexivity|].
    destruct (String.eqb_spec other event) as [->|Hne]; [|reflexivity].
    now rewrite E.
Qed.

Lemma filter_out_absent (c : Listeners.Callback) (l : list Listeners.Callback) :
  c ∉ l -> filter (fun ev => ev <> c) l = l.
Proof.
  induction l as [|a l IH]; intros Hn; [reflexivity|].
  apply not_elem_of_cons in Hn as [Hne Hn].
  rewrite filter_cons_True by congruence. now rewrite IH.
Qed.

Lemma filter_out_last (c : Listeners.Callback) (l : list Listeners.Callback) :
  filter (fun ev => ev <> c) (l ++ [c]) = filter (fun ev => ev <> c) l.
Proof.
  rewrite filter_app, (filter_cons_False _ c []) by (intros H; now apply H).
  apply app_nil_r.
Qed.

(** X25.  A callback that is not registered for an event can be
    registered and removed again without trace, unless the registration
    fails because the event is an inherited name: both calls return, and
    every event is left with the calling order it had. *)
Theorem add_then_remove_listener
        (event other : string) (callback : Listeners.Callback) (r : Listeners.Registry) :
  callback ∉ default [] (r.(Listeners.registered) !! event) ->
  let added := Listeners.addEventListener event callback r in
  let removed := Listeners.removeEventListener event callback (snd added) in
  if JS.inherited event && bool_decide (r.(Listeners.registered) !! event = None) then
    added = (Throw (Listeners.not_a_function "push"), r)
  else
    fst added = Return tt
    /\ fst removed = Return tt
    /\ Listeners.dispatchEvent other (snd removed) = Listeners.dispatchEvent other r.
Proof.
  intros Hn. cbv zeta. rewrite addEventListener_run.
  destruct (Listeners.registered r !! event) as [cs|] eqn:E.
  - rewrite andb_false_r. cbn [fst snd]. rewrite removeEventListener_run.
    cbn [Listeners.registered Listeners.slot]. rewrite lookup_insert_eq. cbn [fst snd].
    split; [reflexivity|]. split; [reflexivity|].
    unfold Listeners.dispatchEvent. cbn [Listeners.registered Listeners.slot].
    rewrite insert_insert_eq, lookup_after_insert.
    destruct (String.eqb_spec other event) as [->|Hne]; [|reflexivity].
    cbn in Hn. now rewrite E, filter_out_last, filter_out_absent.
  - rewrite bool_decide_eq_true_2 by reflexivity. rewrite andb_true_r.
    destruct (JS.inherited event); [reflexivity|].
    cbn [fst snd]. rewrite removeEventListener_run.
    cbn [Listeners.registered Listeners.slot]. rewrite lookup_insert_eq. cbn [fst snd].
    split; [reflexivity|]. split; [reflexivity|].
    unfold Listeners.dispatchEvent. cbn [Listeners.registered Listeners.slot].
    rewrite insert_insert_eq, lookup_after_insert.
    destruct (String.eqb_spec other event) as [->|Hne]; [|reflexivity].
    rewrite E. rewrite (filter_cons_False _ callback []) by (intros H; now apply H).
    reflexivity.
Qed.

Lemma add_then_remove_listener_witness :
  let r := snd (Listeners.addEventListener "load" 1%nat Listeners.empty) in
  let added := Listeners.addEventListener "load" 2%nat r in
  let removed := Listeners.removeEventListener "load" 2%nat (snd added) in
  fst added = Return tt
  /\ fst removed = Return tt
  /\ Listeners.dispatchEvent "load" (snd removed) = Listeners.dispatchEvent "load" r.
Proof.
  apply (add_then_remove_listener "load" "load" 2%nat
           (snd (Listeners.addEventListener "load" 1%nat Listeners.empty))).
  vm_compute. intros H. apply list_elem_of_In in H. cbn in H. intuition discriminate.
Defined.

(** X26.  Removing is idempotent: a second [removeEventListener] ends as
    the first did and leaves the registry as the first left it.  Removing
    from an event that has no list changes nothing, not even creating the
    list, and fails exactly when the event is an inherited name. *)
Theorem remove_listener_twice
        (event : string) (callback : Listeners.Callback) (r : Listeners.Registry) :
  let o := Listeners.removeEventListener event callback r in
  Listeners.removeEventListener event callback (snd o) = o
  /\ match r.(Listeners.registered) !! event with
     | Some _ => fst o = Return tt
     | None => o = (if JS.inherited event
                    then Throw (Listeners.not_a_function "filter") else Return tt, r)
     end.
Proof.
  cbv zeta. rewrite !removeEventListener_run.
  destruct (Listeners.registered r !! event) as [l|] eqn:E; cbn [fst snd].
  - split; [|reflexivity].
    cbn [Listeners.registered Listeners.slot]. rewrite lookup_insert_eq.
    rewrite insert_insert_eq. do 3 f_equal.
    apply list_filter_filter_l. tauto.
  - destruct (JS.inherited event); cbn [snd]; rewrite E; now split.
Qed.

(** Dispatching never fails for the events the emulator dispatches itself,
    nor for an event that has a list. *)
Lemma dispatch_throws_own_events (event : string) (r : Listeners.Registry) :
  In event ["readystatechange"; "loadstart"; "load"; "loadend"]
  \/ is_Some (r.(Listeners.registered) !! event) ->
  Listeners.dispatch_throws event r = false.
Proof.
  unfold Listeners.dispatch_throws. intros [H|[l ->]]; [|reflexivity].
  destruct (Listeners.registered r !! event); [reflexivity|].
  cbn in H. repeat destruct H as [<- | H]; try reflexivity. contradiction.
Qed.

(** Registering for [toString], a name the listener object inherits. *)
Example listener_for_inherited_name :
  Listeners.addEventListener "toString" 1%nat Listeners.empty
  = (Throw "TypeError: listeners[event].push is not a function", Listeners.empty)
  /\ Listeners.removeEventListener "toString" 1%nat Listeners.empty
     = (Throw "TypeError: listeners[event].filter is not a function", Listeners.empty)
  /\ Listeners.removeEventListener "load" 1%nat Listeners.empty
     = (Return tt, Listeners.empty).
Proof. split; [|split]; vm_compute; reflexivity. Qed.

(** X27.  When the stream ends on an exchange that is under way and has
    not failed, the callbacks are called in this order: those of
    [readystatechange], then those of [load], then those of [loadend], each
    group in its own calling order and all with [readyState] at [DONE]. *)
Theorem completion_calls_callbacks_in_order (r : Listeners.Registry) (x : XHR) :
  x.(sendFlag) = true -> x.(errorFlag) = false -> x.(readyState) <> DONE ->
  Listeners.calls r (since x (exec on_end x))
  = map (fun f => (f, "readystatechange", DONE)) (Listeners.dispatchEvent "readystatechange" r)
    ++ map (fun f => (f, "load", DONE)) (Listeners.dispatchEvent "load" r)
    ++ map (fun f => (f, "loadend", DONE)) (Listeners.dispatchEvent "loadend" r).
Proof.
  intros Hsf Hef Hrs. unfold exec. rewrite on_end_run, Hsf. cbn [snd].
  apply Z.eqb_neq in Hrs. rewrite Hrs.
  erewrite since_app by (destruct x; reflexivity).
  unfold transition_events. destruct x as [rq rp st dh h sf ef rs rt rx stt sx tr ph].
  cbn in Hef. subst ef. cbn. rewrite orb_true_r. cbn. now rewrite !app_nil_r.
Qed.

Lemma completion_calls_callbacks_in_order_witness :
  let r := snd (Listeners.addEventListener "load" 7%nat
                  (Listeners.set_slot "readystatechange" (Some 3%nat) Listeners.empty)) in
  Listeners.calls r (since received_sample (exec on_end received_sample))
  = map (fun f => (f, "readystatechange", DONE)) (Listeners.dispatchEvent "readystatechange" r)
    ++ map (fun f => (f, "load", DONE)) (Listeners.dispatchEvent "load" r)
    ++ map (fun f => (f, "loadend", DONE)) (Listeners.dispatchEvent "loadend" r).
Proof.
  apply (completion_calls_callbacks_in_order
           (snd (Listeners.addEventListener "load" 7%nat
                   (Listeners.set_slot "readystatechange" (Some 3%nat) Listeners.empty)))
           received_sample);
    [vm_compute; reflexivity|vm_compute; reflexivity|vm_compute; discriminate].
Defined.

(** ** [removeColors] *)

Lemma color_length_no_escape c s :
  Ascii.eqb c escape = false -> color_length (String c s) = None.
Proof. intros H. cbn. destruct s as [|b [|d1 rest]]; try reflexivity. now rewrite H. Qed.

Lemma strip_colors_plain t s :
  no_escape t = true -> strip_colors 0 (t +:+ s) = t +:+ strip_colors 0 s.
Proof.
  induction t as [|c t IH]; intros Hn; [reflexivity|].
  cbn in Hn. apply andb_true_iff in Hn as [Hc Ht]. apply negb_true_iff in Hc.
  unfold String.app in *. cbn [String.append strip_colors].
  rewrite (color_length_no_escape _ _ Hc). now rewrite IH.
Qed.

Lemma strip_colors_length skip s :
  (String.length (strip_colors skip s) <= String.length s)%nat.
Proof.
  revert skip. induction s as [|c s IH]; intros skip; [destruct skip; cbn; lia|].
  cbn [strip_colors]. destruct skip as [|k]; [|specialize (IH k); cbn; lia].
  destruct (color_length (String c s)) as [n|].
  - specialize (IH (Nat.pred n)). cbn. lia.
  - specialize (IH 0%nat). cbn. lia.
Qed.

(** X28.  [removeColors] returns a text without escape characters
    unchanged, and its result is never longer than its argument. *)
Theorem removeColors_keeps_plain_text (s t : string) :
  no_escape t = true ->
  removeColors t = t
  /\ (String.length (removeColors s) <= String.length s)%nat.
Proof.
  intros Hn. split; [|apply strip_colors_length].
  unfold removeColors. rewrite <- (append_empty_r t) at 1.
  rewrite strip_colors_plain by assumption. apply append_empty_r.
Qed.

Lemma removeColors_keeps_plain_text_witness :
  removeColors "plain text" = "plain text"
  /\ (String.length (removeColors (color1 "1" +:+ "bold")) <= String.length (color1 "1" +:+ "bold"))%nat.
Proof.
  apply (removeColors_keeps_plain_text (color1 "1" +:+ "bold") "plain text"). reflexivity.
Defined.

Lemma strip_colors_color1 d s :
  is_digit d = true -> strip_colors 0 (color1 d +:+ s) = strip_colors 0 s.
Proof.
  intros Hd. unfold color1, String.app. cbn [String.append strip_colors color_length].
  rewrite Hd. cbn [Ascii.eqb Bool.eqb escape andb].
  assert (Hm : is_digit "m" = false) by reflexivity.
  destruct s as [|c s]; cbn; [reflexivity|]. now rewrite Hm.
Qed.

Lemma strip_colors_color2 d1 d2 s :
  is_digit d1 = true -> is_digit d2 = true ->
  strip_colors 0 (color2 d1 d2 +:+ s) = strip_colors 0 s.
Proof.
  intros H1 H2. unfold color2, String.app. cbn [String.append strip_colors color_length].
  rewrite H1, H2. reflexivity.
Qed.

(** X29.  Color codes put around a text without escape characters come
    off again: with a one-digit code in front and a two-digit code behind,
    [removeColors] returns exactly the text. *)
Theorem removeColors_unwraps (d d1 d2 : ascii) (t : string) :
  is_digit d = true -> is_digit d1 = true -> is_digit d2 = true ->
  no_escape t = true ->
  removeColors (color1 d +:+ t +:+ color2 d1 d2) = t.
Proof.
  intros Hd H1 H2 Hn. unfold removeColors.
  rewrite strip_colors_color1, strip_colors_plain by assumption.
  rewrite <- (append_empty_r (color2 d1 d2)), strip_colors_color2 by assumption.
  apply append_empty_r.
Qed.

Lemma removeColors_unwraps_witness :
  removeColors (color1 "1" +:+ "error" +:+ color2 "3" "9") = "error".
Proof.
  apply (removeColors_unwraps "1" "3" "9" "error"); reflexivity.
Defined.

